(** * QR-code batch generator

    A shallow embedding of [generate_qr_codes.py]: the function
    [generate_qr_codes_from_csv] and the script entry point, over an explicit
    model of what they act on (the file system and the console) and of the
    values they receive from the two packages they call ([pandas] for loading
    the table, [qrcode] for encoding and rendering). *)

From Stdlib Require Import ZArith String Ascii List Lia.
From stdpp Require Import base strings gmap sets list pretty.

Local Open Scope string_scope.
Local Open Scope nat_scope.
Local Open Scope list_scope.

(** ** Python values and text *)

(** The objects a DataFrame cell can hold.  A finite float is carried by the
    text [str] gives it; [VNaN] is the float NaN, which is what the CSV loader
    puts in a cell whose field is empty or missing. *)
Inductive value :=
  | VStr (s : string)
  | VInt (z : Z)
  | VBool (b : bool)
  | VFloat (repr : string)
  | VNaN.

#[global] Instance value_eq_dec : EqDecision value.
Proof. solve_decision. Defined.

(** [str(v)], also used by f-string interpolation [{v}]. *)
Definition py_str (v : value) : string :=
  match v with
  | VStr s => s
  | VInt z => pretty z
  | VBool b => if b then "True" else "False"
  | VFloat r => r
  | VNaN => "nan"
  end.

(** A [string] stands for a Python [str] whose code points are below 256.
    [py_isspace] is [str.isspace] on one such code point: TAB..CR, FS..US,
    space, NEL and NBSP. *)
Definition py_isspace (c : ascii) : bool :=
  let n := N_of_ascii c in
  ((9 <=? n) && (n <=? 13) || (28 <=? n) && (n <=? 32) || (n =? 133) || (n =? 160))%N.

Fixpoint lstrip (s : string) : string :=
  match s with
  | EmptyString => EmptyString
  | String c s' => if py_isspace c then lstrip s' else s
  end.

Definition rstrip (s : string) : string := String.rev (lstrip (String.rev s)).

(** [s.strip()] *)
Definition strip (s : string) : string := rstrip (lstrip s).

(** The newline inside the completion message. *)
Definition nl : string := String "010"%char EmptyString.

(** ** The table the loader returns *)

Record DataFrame := mkDataFrame {
  columns : list string;
  rows : list (list value)
}.

(** One row as [df.iterrows()] yields it: the column labels and the values
    (the values of [rows] are taken as [iterrows] hands them over). *)
Record Series := mkSeries {
  index : list string;
  values : list value
}.

#[global] Instance Series_eq_dec : EqDecision Series.
Proof. solve_decision. Defined.

Definition iterrows (df : DataFrame) : list Series :=
  map (mkSeries (columns df)) (rows df).

(** The value under label [key]; a row shorter than the header reads as padded
    with NaN, which is how the loader fills short lines. *)
Fixpoint cell (labels : list string) (vals : list value) (key : string) : value :=
  match labels with
  | [] => VNaN
  | l :: ls => if decide (l = key) then hd VNaN vals else cell ls (tl vals) key
  end.

(** ** Exceptions *)

(** The exception classes the handlers of the function tell apart, and those
    the model raises.  [OtherError] is any further subclass of [Exception]
    (a parser or decoding error, [DataOverflowError], an [OSError], ...),
    carried by its message. *)
Inductive exn :=
  | FileExistsError (msg : string)
  | FileNotFoundError (msg : string)
  | EmptyDataError (msg : string)
  | ValueError (msg : string)
  | KeyError (key : string)
  | OtherError (msg : string).

#[global] Instance exn_eq_dec : EqDecision exn.
Proof. solve_decision. Defined.

(** [str(e)] *)
Definition exn_str (e : exn) : string :=
  match e with
  | FileExistsError m | FileNotFoundError m | EmptyDataError m
  | ValueError m | OtherError m => m
  | KeyError k => "'" +:+ k +:+ "'"
  end.

(** ** The [qrcode] objects *)

Inductive error_correction_level :=
  | ERROR_CORRECT_L
  | ERROR_CORRECT_M
  | ERROR_CORRECT_Q
  | ERROR_CORRECT_H.

(** A [qrcode.QRCode] object: its [version] (the constructor argument until
    [make] runs, the version of the symbol built afterwards), the other
    constructor arguments, the payloads added so far, and whether [make] has
    run (with which [fit] flag).  The modules of the symbol are a function of
    these and are not unfolded. *)
Record QRCode := mkQRCode {
  version : Z;
  error_correction : error_correction_level;
  box_size : Z;
  border : Z;
  data_list : list string;
  made : option bool
}.

(** The image [make_image] returns: the symbol it renders and the colours.
    Saving it writes the PNG rendering of exactly this description. *)
Record PilImage := mkPilImage {
  img_qr : QRCode;
  fill_color : string;
  back_color : string
}.

Definition add_data (qr : QRCode) (data : string) : QRCode :=
  mkQRCode (version qr) (error_correction qr) (box_size qr) (border qr)
           (data_list qr ++ [data]) (made qr).

Definition make_image (qr : QRCode) (fill back : string) : PilImage :=
  mkPilImage qr fill back.

(** ** The file system and the console *)

(** What a regular file holds, as far as the program can tell:
    - [CsvText df]: text with a header line, which [pd.read_csv] parses to
      [df] (the header gives [columns df], each further line one row; a file
      with a header and nothing else gives [rows df = []]);
    - [BlankText]: a file with no line at all, on which [pd.read_csv] raises
      [EmptyDataError] ("No columns to parse from file");
    - [BadText msg]: content on which [pd.read_csv] raises another exception
      with message [msg];
    - [PngImage img]: the PNG written by [img.save]. *)
Inductive file :=
  | CsvText (df : DataFrame)
  | BlankText
  | BadText (msg : string)
  | PngImage (img : PilImage).

(** [dirs] are the directories, [files] the regular files, [stdout] the
    arguments of the [print] calls so far, oldest first.  The system is a
    POSIX one whose names are case-sensitive, and no link stands below the
    working directory.  A file or directory is kept under one name, its path
    from the working directory written plainly (see [plain_path] below); the
    file that another spelling of a path reaches, through [..] or the root,
    is for the system to say (see [reach] in the program section). *)
Record world := mkWorld {
  dirs : gset string;
  files : gmap string file;
  stdout : list string
}.

(** ** Paths, as [pathlib] writes them *)

(** [s] begins with [pre]. *)
Fixpoint starts_with (pre s : string) : bool :=
  match pre, s with
  | EmptyString, _ => true
  | String a pre', String b s' => Ascii.eqb a b && starts_with pre' s'
  | String _ _, EmptyString => false
  end.

(** [s.split(sep)] for a separator of one character. *)
Fixpoint split_on (sep : ascii) (s : string) : list string :=
  match s with
  | EmptyString => [EmptyString]
  | String c s' =>
      if Ascii.eqb c sep then EmptyString :: split_on sep s'
      else
        match split_on sep s' with
        | x :: l => String c x :: l
        | [] => [String c EmptyString]
        end
  end.

(** [sep.join(l)] *)
Fixpoint join_with (sep : string) (l : list string) : string :=
  match l with
  | [] => EmptyString
  | x :: l' =>
      match l' with
      | [] => x
      | _ :: _ => x +:+ (sep +:+ join_with sep l')
      end
  end.

(** [posixpath.splitroot]: no root for a relative path, [//] for a path with
    exactly two leading separators, [/] for any other absolute path. *)
Definition path_root (p : string) : string :=
  if starts_with "///" p then "/"
  else if starts_with "//" p then "//"
  else if starts_with "/" p then "/"
  else "".

(** The components a [Path] keeps: the empty ones (a doubled or trailing
    separator) and [.] are dropped, [..] is kept. *)
Definition path_parts (p : string) : list string :=
  List.filter (fun x => negb (String.eqb x "") && negb (String.eqb x "."))
              (split_on "/" p).

(** [str(Path(p))] *)
Definition path_str (p : string) : string :=
  match path_root p, path_parts p with
  | EmptyString, [] => "."
  | root, parts => root +:+ join_with "/" parts
  end.

Definition ends_with_sep (p : string) : bool :=
  starts_with "/" (String.rev p).

(** [posixpath.join(dir, name)]: an absolute [name] replaces [dir]. *)
Definition posix_join (dir name : string) : string :=
  if starts_with "/" name then name
  else if String.eqb dir "" || ends_with_sep dir then dir +:+ name
  else dir +:+ ("/" +:+ name).

(** [str(Path(dir) / name)] *)
Definition path_join (dir name : string) : string :=
  path_str (posix_join dir name).

(** No separator in [s]. *)
Fixpoint no_sep (s : string) : bool :=
  match s with
  | EmptyString => true
  | String c s' => negb (Ascii.eqb c "/") && no_sep s'
  end.

(** A component that names an entry of its directory. *)
Definition proper_name (x : string) : bool :=
  negb (String.eqb x "") && negb (String.eqb x ".") && negb (String.eqb x "..").

(** [p] is written plainly: relative, and each component is a name, so that
    [p] is the one plain spelling of what it names. *)
Definition plain_path (p : string) : bool :=
  negb (starts_with "/" p) && forallb proper_name (split_on "/" p).

(** The paths above [p] that [p] spells out: its proper prefixes ending
    before a separator, the empty one apart. *)
Fixpoint ancestors_from (done rest : string) : list string :=
  match rest with
  | EmptyString => []
  | String c rest' =>
      (if Ascii.eqb c "/" && negb (String.eqb done "") then [done] else []) ++
      ancestors_from (done +:+ String c EmptyString) rest'
  end.

Definition ancestors (p : string) : list string := ancestors_from "" p.

(** ** Computations that change the world and may raise *)

Inductive result (A : Type) :=
  | Return (a : A)
  | Raise (e : exn).
Arguments Return {A} a.
Arguments Raise {A} e.

(** Effects made before an exception is raised stay made. *)
Definition M (A : Type) : Type := world -> result A * world.

Definition ret {A} (a : A) : M A := fun w => (Return a, w).

Definition raise {A} (e : exn) : M A := fun w => (Raise e, w).

Definition bind {A B} (m : M A) (k : A -> M B) : M B := fun w =>
  match m w with
  | (Return a, w') => k a w'
  | (Raise e, w') => (Raise e, w')
  end.

(** [try: body except ...: handler] where the clauses together catch every
    [exn]. *)
Definition try_except {A} (body : M A) (handler : exn -> M A) : M A := fun w =>
  match body w with
  | (Return a, w') => (Return a, w')
  | (Raise e, w') => handler e w'
  end.

Declare Scope py_scope.
Delimit Scope py_scope with py.
Notation "x <- m ;; k" := (bind m (fun x => k))
  (at level 100, m at next level, right associativity) : py_scope.
Notation "m ;; k" := (bind m (fun _ => k))
  (at level 100, right associativity) : py_scope.

Local Open Scope py_scope.

Fixpoint for_each {A} (l : list A) (body : A -> M unit) : M unit :=
  match l with
  | [] => ret tt
  | x :: l' => body x ;; for_each l' body
  end.

Definition print (line : string) : M unit := fun w =>
  (Return tt, mkWorld (dirs w) (files w) (stdout w ++ [line])).

(** [pd.read_csv(p)], for [p] the name under which the system keeps the
    file when there is one.  Where nothing stands at [p], opening it fails
    with [IsADirectoryError] when [p] is a directory, with
    [NotADirectoryError] when [p] passes through a regular file, and with
    [FileNotFoundError] otherwise. *)
Definition read_csv (p : string) : M DataFrame := fun w =>
  match files w !! p with
  | Some (CsvText df) => (Return df, w)
  | Some BlankText => (Raise (EmptyDataError "No columns to parse from file"), w)
  | Some (BadText msg) => (Raise (OtherError msg), w)
  | Some (PngImage _) =>
      (Raise (OtherError "'utf-8' codec can't decode byte 0x89 in position 0: invalid start byte"), w)
  | None =>
      if decide (p ∈ dirs w) then
        (Raise (OtherError ("[Errno 21] Is a directory: '" +:+ p +:+ "'")), w)
      else if decide (Exists (fun a => a ∈ dom (files w)) (ancestors p)) then
        (Raise (OtherError ("[Errno 20] Not a directory: '" +:+ p +:+ "'")), w)
      else
        (Raise (FileNotFoundError ("[Errno 2] No such file or directory: '" +:+ p +:+ "'")), w)
  end.

(** [row[key]] *)
Definition getitem (row : Series) (key : string) : M value :=
  if decide (key ∈ index row) then ret (cell (index row) (values row) key)
  else raise (KeyError key).

(** [row.get(key, default)] *)
Definition get (row : Series) (key : string) (default : value) : value :=
  if decide (key ∈ index row) then cell (index row) (values row) key else default.

(** ** What one record turns into

    The identifier, the symbol, the image, the path handed to [save] and
    the progress line of a row, written once as plain functions;
    [generate_one_eq] below shows that the loop body computes exactly
    these. *)

Definition row_srn (row : Series) : string :=
  strip (py_str (cell (index row) (values row) "SRN")).

Definition row_name (row : Series) : string :=
  strip (py_str (cell (index row) (values row) "Name")).

Definition row_status (df : DataFrame) (row : Series) : value :=
  if bool_decide ("Status" ∈ columns df) then get row "Status" (VStr "Unknown")
  else VStr "Unknown".

Definition qr_of (srn : string) : QRCode :=
  mkQRCode 1 ERROR_CORRECT_L 10 4 [srn] None.

(** [filepath], as a string: what [save] opens and what the progress line
    shows. *)
Definition image_path (srn : string) : string :=
  path_join "qr_codes" (srn +:+ ".png").

Definition progress_line (df : DataFrame) (row : Series) : string :=
  "Generated QR code for " +:+ row_name row +:+ " (SRN: " +:+ row_srn row +:+
  ", Status: " +:+ py_str (row_status df row) +:+ ") -> " +:+ image_path (row_srn row).

Definition found_line (df : DataFrame) : string :=
  "Found " +:+ pretty (length (rows df)) +:+ " records in the CSV file".

Definition done_line : string :=
  nl +:+ "All QR codes have been generated and saved to the 'qr_codes' folder!".

(** The exit status of the interpreter: 0 when the script ends normally, 1
    when an exception reaches the top of the script. *)
Definition exit_status {A} (r : result A) : Z :=
  match r with
  | Return _ => 0
  | Raise _ => 1
  end.

(** ** Vocabulary of the statements *)

(** The header has both mandatory columns. *)
Definition required_columns (df : DataFrame) : Prop :=
  "Name" ∈ columns df ∧ "SRN" ∈ columns df.

#[global] Instance required_columns_dec (df : DataFrame) : Decision (required_columns df).
Proof. unfold required_columns. apply _. Defined.

(** The directories once [qr_codes] is there. *)
Definition ensured (ds : gset string) : gset string := {[ "qr_codes" ]} ∪ ds.

(** The line an [except] clause prints for [e]. *)
Definition diagnostic (csv_file_path : string) (e : exn) : string :=
  match e with
  | FileNotFoundError _ => "Error: CSV file '" +:+ csv_file_path +:+ "' not found!"
  | EmptyDataError _ => "Error: The CSV file is empty!"
  | _ => "Error: " +:+ exn_str e
  end.

(** The configuration the claim lists, read off an image. *)
Definition fixed_configuration (img : PilImage) : Prop :=
  version (img_qr img) = 1%Z ∧
  error_correction (img_qr img) = ERROR_CORRECT_L ∧
  box_size (img_qr img) = 10%Z ∧
  border (img_qr img) = 4%Z ∧
  fill_color img = "black" ∧
  back_color img = "white".

(** ** Sample inputs

    Small tables and file systems on which the statements below are
    evaluated. *)

Definition input_path : string := "paid_list_with_status.csv".

Definition df_sample : DataFrame :=
  mkDataFrame ["Name"; "SRN"; "Status"]
    [ [VStr "Asha Rao"; VStr " PES1UG20CS001 "; VStr "Paid"];
      [VStr "Ravi K"; VStr "PES1UG20CS002"; VStr "Pending"] ].

(** Two records with the same identifier once trimmed. *)
Definition df_dup : DataFrame :=
  mkDataFrame ["Name"; "SRN"]
    [ [VStr "Asha Rao"; VStr "PES1UG20CS001"];
      [VStr "Ravi K"; VStr " PES1UG20CS001"] ].

(** A header and no data row. *)
Definition df_header_only : DataFrame :=
  mkDataFrame ["Name"; "SRN"; "Status"] [].

(** A header without the [SRN] column. *)
Definition df_no_srn : DataFrame :=
  mkDataFrame ["Name"; "Status"] [ [VStr "Asha Rao"; VStr "Paid"] ].

(** A record whose [SRN] field is empty. *)
Definition df_blank_srn : DataFrame :=
  mkDataFrame ["Name"; "SRN"] [ [VStr "Asha Rao"; VNaN] ].

(** A working directory holding only the input file. *)
Definition world_with (f : file) : world :=
  mkWorld ∅ {[ input_path := f ]} [].

(** An empty working directory. *)
Definition world_bare : world := mkWorld ∅ ∅ [].

(** A working directory where [qr_codes] is a regular file. *)
Definition world_blocked : world :=
  mkWorld ∅ {[ "qr_codes" := BlankText; input_path := CsvText df_sample ]} [].

(** A record whose identifier has thirty characters. *)
Definition df_long : DataFrame :=
  mkDataFrame ["Name"; "SRN"]
    [ [VStr "Asha Rao"; VStr "pes-university-2020-cs-section"] ].

(** The bytes a level-L symbol of version 1, 2, ..., 40 holds in byte mode
    (the capacity table of the QR standard). *)
Definition byte_capacity_L : list nat :=
  [17; 32; 53; 78; 106; 134; 154; 192; 230; 271;
   321; 367; 425; 458; 520; 586; 644; 718; 792; 858;
   929; 1003; 1091; 1171; 1273; 1367; 1465; 1528; 1628; 1732;
   1840; 1952; 2068; 2188; 2303; 2431; 2563; 2699; 2809; 2953].

(** The first version from [v] on, among those listed, that holds [n] bytes. *)
Fixpoint first_fit (n : nat) (v : Z) (caps : list nat) : option Z :=
  match caps with
  | [] => None
  | c :: caps' => if (n <=? c)%nat then Some v else first_fit n (v + 1)%Z caps'
  end.

(** What [make] does at level L, for a requested version from 1 to 40, with
    an ASCII payload kept in byte mode (text with lower-case letters): with
    [fit] the symbol gets the first version from the requested one on that
    holds the payload, without it the requested version;
    [DataOverflowError] when the payload does not fit.  A payload of digits
    or upper-case letters only is packed tighter and never needs a larger
    version than this. *)
Definition byte_mode_make (qr : QRCode) (fit : bool) : exn + Z :=
  let n := list_sum (map String.length (data_list qr)) in
  let start := Z.to_nat (version qr) - 1 in
  match first_fit n (version qr)
          (if fit then drop start byte_capacity_L
           else take 1 (drop start byte_capacity_L)) with
  | Some v => inr v
  | None => inl (OtherError "DataOverflowError")
  end.

(** A system that accepts every file name. *)
Definition no_save_error (ds : gset string) (p : string) : option exn := None.

(** A system where a directory can be created wherever nothing stands. *)
Definition no_mkdir_error (ds : gset string) (p : string) : option exn := None.

(** The components of a path once each [..] has taken back the name before
    it; a [..] with no name before it stays. *)
Definition collapse (parts : list string) : list string :=
  fold_left
    (fun acc x =>
       if String.eqb x ".." then
         match List.rev acc with
         | [] => [x]
         | y :: before =>
             if String.eqb y ".." then acc ++ [x] else List.rev before
         end
       else acc ++ [x])
    parts [].

(** A system without links whose directories on the way are all there: a
    relative path reaches what its collapsed components name, an absolute
    path a file outside the working directory kept under that path. *)
Definition lexical_reach (p : string) : string :=
  if starts_with "/" p then path_str p
  else join_with "/" (collapse (path_parts p)).

(** ** Vocabulary of the further statements *)

(** Every character of [s] is white space. *)
Fixpoint blank (s : string) : bool :=
  match s with
  | EmptyString => true
  | String c s' => py_isspace c && blank s'
  end.

(** [s] does not start with white space. *)
Definition clean_start (s : string) : bool :=
  match s with
  | EmptyString => true
  | String c _ => negb (py_isspace c)
  end.

(** The lines printed between two states of the console. *)
Definition printed (before after : world) : list string :=
  drop (length (stdout before)) (stdout after).

(** A record whose identifier names a file below a directory that is not
    there. *)
Definition df_nested : DataFrame :=
  mkDataFrame ["Name"; "SRN"]
    [ [VStr "Asha Rao"; VStr "PES1UG20CS001"];
      [VStr "Ravi K"; VStr "2020/CS002"];
      [VStr "Mira S"; VStr "PES1UG20CS003"] ].

(** A table whose [Status] column has an empty field, and one surrounded by
    white space. *)
Definition df_status : DataFrame :=
  mkDataFrame ["Name"; "SRN"; "Status"]
    [ [VStr "Asha Rao"; VStr "PES1UG20CS001"; VNaN];
      [VStr " Ravi K "; VStr "PES1UG20CS002"; VStr " Paid "] ].

(** The rows of [df_sample] in the other order. *)
Definition df_sample_reversed : DataFrame :=
  mkDataFrame ["Name"; "SRN"; "Status"]
    [ [VStr "Ravi K"; VStr "PES1UG20CS002"; VStr "Pending"];
      [VStr "Asha Rao"; VStr " PES1UG20CS001 "; VStr "Paid"] ].

(** A working directory where an earlier run left the image of a record that
    the input no longer lists. *)
Definition world_stale : world :=
  mkWorld {[ "qr_codes" ]}
    {[ input_path := CsvText df_sample;
       "qr_codes/OLD.png" :=
         PngImage (mkPilImage (mkQRCode 1 ERROR_CORRECT_L 10 4 ["OLD"] (Some true))
                              "black" "white") ]}
    [].

(** Two spellings of one file name among the identifiers. *)
Definition df_alias : DataFrame :=
  mkDataFrame ["Name"; "SRN"]
    [ [VStr "Asha Rao"; VStr "A1"];
      [VStr "Ravi K"; VStr "./A1"] ].

(** An identifier that climbs out of [qr_codes], and one that names a file
    from the root. *)
Definition df_climb : DataFrame :=
  mkDataFrame ["Name"; "SRN"]
    [ [VStr "Asha Rao"; VStr "../list"];
      [VStr "Ravi K"; VStr "/tmp/x"] ].

(** Two records sharing an identifier that names a file below a directory
    that is not there. *)
Definition df_dup_nested : DataFrame :=
  mkDataFrame ["Name"; "SRN"]
    [ [VStr "Asha Rao"; VStr "2020/CS002"];
      [VStr "Ravi K"; VStr "2020/CS002"] ].

(** The separators in a path. *)
Fixpoint count_sep (p : string) : nat :=
  match p with
  | EmptyString => 0
  | String c p' => (if Ascii.eqb c "/" then 1 else 0) + count_sep p'
  end.

(** A system where [qr_codes] has no subdirectory: opening a path with a
    second separator fails for want of the parent directory. *)
Definition flat_save_error (ds : gset string) (p : string) : option exn :=
  if 1 <? count_sep p then
    Some (FileNotFoundError ("[Errno 2] No such file or directory: '" +:+ p +:+ "'"))
  else None.

(** A decidable statement about sample inputs, settled by evaluation. *)
Ltac by_evaluation :=
  match goal with
  | |- ?P => apply (bool_decide_unpack P); vm_compute; exact I
  end.

(** ** The program *)

Section Generator.

(** What the program does not decide:
    - [make_outcome qr fit] is what [qr.make(fit)] does on [qr], either the
      exception it raises (a payload too long for any symbol, say) or the
      version of the symbol it builds;
    - [save_error ds p] is the exception [img.save(p)] raises for another
      reason than [p] reaching a directory, when the directories are [ds] (a
      directory on the way that is not there, a name the system rejects);
    - [reach p] is the name under which the system keeps what a path [p]
      that is not written plainly reaches from the working directory (for
      [qr_codes/../list.png] the file [list.png], for an absolute path the
      file it names);
    - [mkdir_error ds p] is the exception creating a directory at [p] raises
      when neither a regular file nor a directory stands there and the
      directories are [ds] (a dangling link or a FIFO of that name, a
      working directory that cannot be written).
    All four are functions, the same call getting the same answer; nothing
    else is assumed about them. *)
Variable make_outcome : QRCode -> bool -> exn + Z.
Variable save_error : gset string -> string -> option exn.
Variable reach : string -> string.
Variable mkdir_error : gset string -> string -> option exn.

(** The name of what the path [p] reaches. *)
Definition locate (p : string) : string :=
  if plain_path p then p else reach p.

(** [Path(p).mkdir(exist_ok=...)]: nothing to do when [p] is a directory and
    [exist_ok] holds; [FileExistsError] when [p] is taken otherwise; where
    nothing the model knows stands at [p], the directory is created unless
    the system refuses. *)
Definition mkdir (p : string) (exist_ok : bool) : M unit := fun w =>
  if decide (p ∈ dom (files w)) then
    (Raise (FileExistsError ("[Errno 17] File exists: '" +:+ p +:+ "'")), w)
  else if decide (p ∈ dirs w) then
    if exist_ok then (Return tt, w)
    else (Raise (FileExistsError ("[Errno 17] File exists: '" +:+ p +:+ "'")), w)
  else
    match mkdir_error (dirs w) p with
    | Some e => (Raise e, w)
    | None => (Return tt, mkWorld ({[p]} ∪ dirs w) (files w) (stdout w))
    end.

(** [qr.make(fit=...)] *)
Definition make (qr : QRCode) (fit : bool) : M QRCode := fun w =>
  match make_outcome qr fit with
  | inl e => (Raise e, w)
  | inr v =>
      (Return (mkQRCode v (error_correction qr) (box_size qr)
                        (border qr) (data_list qr) (Some fit)), w)
  end.

(** [img.save(filepath)]: creates the file that [filepath] reaches or
    replaces its content, unless the system refuses the path or a directory
    stands there. *)
Definition save (img : PilImage) (filepath : string) : M unit := fun w =>
  match save_error (dirs w) filepath with
  | Some e => (Raise e, w)
  | None =>
      if decide (locate filepath ∈ dirs w) then
        (Raise (OtherError ("[Errno 21] Is a directory: '" +:+ filepath +:+ "'")), w)
      else
        (Return tt,
         mkWorld (dirs w) (<[locate filepath := PngImage img]> (files w)) (stdout w))
  end.

(** The body of the [for] loop. *)
Definition generate_one (qr_codes_dir : string) (df : DataFrame) (row : Series)
  : M unit :=
  v <- getitem row "SRN" ;;
  let srn := strip (py_str v) in
  v' <- getitem row "Name" ;;
  let name := strip (py_str v') in
  let status :=
    if bool_decide ("Status" ∈ columns df) then get row "Status" (VStr "Unknown")
    else VStr "Unknown" in
  let qr := mkQRCode 1 ERROR_CORRECT_L 10 4 [] None in
  let qr := add_data qr srn in
  qr <- make qr true ;;
  let img := make_image qr "black" "white" in
  let filename := srn +:+ ".png" in
  let filepath := path_join qr_codes_dir filename in
  save img filepath ;;
  print ("Generated QR code for " +:+ name +:+ " (SRN: " +:+ srn +:+
         ", Status: " +:+ py_str status +:+ ") -> " +:+ filepath).

(** The statements under [try]. *)
Definition generate_body (qr_codes_dir csv_file_path : string) : M unit :=
  df <- read_csv csv_file_path ;;
  (if bool_decide ("Name" ∉ columns df) || bool_decide ("SRN" ∉ columns df)
   then raise (ValueError "CSV file must contain 'Name' and 'SRN' columns")
   else ret tt) ;;
  print ("Found " +:+ pretty (length (rows df)) +:+ " records in the CSV file") ;;
  for_each (iterrows df) (generate_one qr_codes_dir df) ;;
  print (nl +:+ "All QR codes have been generated and saved to the 'qr_codes' folder!").

(** The three [except] clauses. *)
Definition report (csv_file_path : string) (e : exn) : M unit :=
  match e with
  | FileNotFoundError _ =>
      print ("Error: CSV file '" +:+ csv_file_path +:+ "' not found!")
  | EmptyDataError _ => print "Error: The CSV file is empty!"
  | _ => print ("Error: " +:+ exn_str e)
  end.

Definition generate_qr_codes_from_csv (csv_file_path : string) : M unit :=
  let qr_codes_dir := "qr_codes" in
  mkdir qr_codes_dir true ;;
  try_except (generate_body qr_codes_dir csv_file_path) (report csv_file_path).

(** The script run as a program. *)
Definition main : M unit :=
  generate_qr_codes_from_csv "paid_list_with_status.csv".

(** ** What a batch writes and what stops it *)

(** The [mkdir] of the first two statements succeeds: no regular file stands
    at [qr_codes], and the directory is there or can be created. *)
Definition can_mkdir (w : world) : Prop :=
  ("qr_codes" ∉ dom (files w)) ∧
  ("qr_codes" ∈ dirs w ∨ mkdir_error (dirs w) "qr_codes" = None).

#[global] Instance can_mkdir_dec (w : world) : Decision (can_mkdir w).
Proof. unfold can_mkdir. apply _. Defined.

(** The file in which the image for the identifier [srn] ends up. *)
Definition row_dest (srn : string) : string := locate (image_path srn).

(** The files written for the rows of a table, in order. *)
Definition written_paths (df : DataFrame) : list string :=
  map (fun row => row_dest (row_srn row)) (iterrows df).

(** The version of the symbol built for the payload [srn]. *)
Definition fitted_version (srn : string) : Z :=
  match make_outcome (qr_of srn) true with
  | inr v => v
  | inl _ => 1
  end.

(** The image saved for the payload [srn]. *)
Definition image_of (srn : string) : PilImage :=
  mkPilImage (mkQRCode (fitted_version srn) ERROR_CORRECT_L 10 4 [srn] (Some true))
             "black" "white".

(** The files after the images of the rows [l] have been saved, in order. *)
Definition write_all (l : list Series) (fs : gmap string file) : gmap string file :=
  foldl (fun m row => <[row_dest (row_srn row) := PngImage (image_of (row_srn row))]> m)
        fs l.

(** The exception that processing [row] raises when the directories are
    [ds], if any. *)
Definition row_error (ds : gset string) (row : Series) : option exn :=
  match make_outcome (qr_of (row_srn row)) true with
  | inl e => Some e
  | inr _ =>
      match save_error ds (image_path (row_srn row)) with
      | Some e => Some e
      | None =>
          if decide (row_dest (row_srn row) ∈ ds) then
            Some (OtherError ("[Errno 21] Is a directory: '" +:+
                              image_path (row_srn row) +:+ "'"))
          else None
      end
  end.

(** The rows before the first one that raises. *)
Fixpoint processed (ds : gset string) (l : list Series) : list Series :=
  match l with
  | [] => []
  | row :: l' =>
      match row_error ds row with
      | None => row :: processed ds l'
      | Some _ => []
      end
  end.

(** The exception of the first row that raises. *)
Fixpoint first_error (ds : gset string) (l : list Series) : option exn :=
  match l with
  | [] => None
  | row :: l' =>
      match row_error ds row with
      | None => first_error ds l'
      | Some e => Some e
      end
  end.

(** ** A run in closed form *)

(** What loading [path] gives when the directories are [ds] and the files
    [fs]. *)
Definition load (path : string) (ds : gset string) (fs : gmap string file)
  : result DataFrame :=
  (read_csv path (mkWorld ds fs [])).1.

(** The lines a run prints once [qr_codes] is there. *)
Definition run_lines (path : string) (ds : gset string) (fs : gmap string file)
  : list string :=
  match load path ds fs with
  | Raise e => [diagnostic path e]
  | Return df =>
      if decide (required_columns df) then
        found_line df :: map (progress_line df) (processed ds (iterrows df)) ++
        [match first_error ds (iterrows df) with
         | None => done_line
         | Some e => diagnostic path e
         end]
      else ["Error: CSV file must contain 'Name' and 'SRN' columns"]
  end.

(** The files a run leaves once [qr_codes] is there. *)
Definition run_files (path : string) (ds : gset string) (fs : gmap string file)
  : gmap string file :=
  match load path ds fs with
  | Raise _ => fs
  | Return df =>
      if decide (required_columns df) then write_all (processed ds (iterrows df)) fs
      else fs
  end.

(** ** The text functions on small inputs *)

Example strip_trims_both_ends : strip " PES1UG20CS001 " = "PES1UG20CS001".
Proof. reflexivity. Qed.

Example strip_keeps_inner_space : strip (nl +:+ "  Asha Rao ") = "Asha Rao".
Proof. reflexivity. Qed.

Example strip_of_blank : strip "   " = "".
Proof. reflexivity. Qed.

Example py_str_int : py_str (VInt (-7)) = "-7".
Proof. reflexivity. Qed.

Example cell_of_short_row : cell ["Name"; "SRN"] [VStr "Asha Rao"] "SRN" = VNaN.
Proof. reflexivity. Qed.

(** ** The path functions on small inputs *)

Example join_of_a_file_name : path_join "qr_codes" "A1.png" = "qr_codes/A1.png".
Proof. reflexivity. Qed.

Example join_drops_dot : path_join "qr_codes" "./A1.png" = "qr_codes/A1.png".
Proof. reflexivity. Qed.

Example join_drops_doubled_separator :
  path_join "qr_codes" "a//b.png" = "qr_codes/a/b.png".
Proof. reflexivity. Qed.

Example join_keeps_dot_dot : path_join "qr_codes" "../list.png" = "qr_codes/../list.png".
Proof. reflexivity. Qed.

Example join_with_absolute_name : path_join "qr_codes" "/tmp/x.png" = "/tmp/x.png".
Proof. reflexivity. Qed.

Example join_with_two_leading_separators :
  path_join "qr_codes" "//srv/x.png" = "//srv/x.png".
Proof. reflexivity. Qed.

Example plain_path_of_an_image : plain_path "qr_codes/A1.png" = true.
Proof. reflexivity. Qed.

Example plain_path_refuses_dot_dot : plain_path "qr_codes/../list.png" = false.
Proof. reflexivity. Qed.

Example ancestors_of_a_nested_path :
  ancestors "data/list.csv/x" = ["data"; "data/list.csv"].
Proof. reflexivity. Qed.

Example lexical_reach_climbs : lexical_reach "qr_codes/../list.png" = "list.png".
Proof. reflexivity. Qed.

(** ** Paths *)

Lemma append_nil_l (t : string) : "" +:+ t = t.
Proof. reflexivity. Qed.

Lemma append_cons (c : ascii) (s t : string) :
  String c s +:+ t = String c (s +:+ t).
Proof. reflexivity. Qed.

Lemma append_length (s t : string) :
  String.length (s +:+ t) = String.length s + String.length t.
Proof.
  induction s as [|c s IH]; [done|].
  rewrite append_cons. simpl. by rewrite IH.
Qed.

Lemma append_inj_r (s1 s2 t : string) : s1 +:+ t = s2 +:+ t → s1 = s2.
Proof.
  revert s2. induction s1 as [|c s1 IH]; intros [|c' s2] H.
  - done.
  - apply (f_equal String.length) in H.
    rewrite !append_length in H. simpl in H. lia.
  - apply (f_equal String.length) in H.
    rewrite !append_length in H. simpl in H. lia.
  - rewrite !append_cons in H. injection H as -> H. f_equal. by apply IH.
Qed.

Lemma no_sep_app (a b : string) : no_sep (a +:+ b) = no_sep a && no_sep b.
Proof.
  induction a as [|c a IH]; [done|].
  rewrite append_cons. cbn [no_sep]. by rewrite IH, andb_assoc.
Qed.

Lemma no_sep_not_rooted (s : string) : no_sep s = true → starts_with "/" s = false.
Proof.
  destruct s as [|c s]; [done|]. cbn [no_sep starts_with]. intros H.
  apply andb_prop in H as [H _]. apply negb_true_iff in H.
  rewrite Ascii.eqb_sym. by rewrite H.
Qed.

Lemma split_on_no_sep (s : string) : no_sep s = true → split_on "/" s = [s].
Proof.
  induction s as [|c s IH]; [done|]. cbn [no_sep split_on]. intros H.
  apply andb_prop in H as [Hc Hs]. apply negb_true_iff in Hc.
  rewrite Hc. by rewrite (IH Hs).
Qed.

Lemma split_on_app_sep (a b : string) :
  no_sep a = true → split_on "/" (a +:+ String "/" b) = a :: split_on "/" b.
Proof.
  induction a as [|c a IH]; [done|]. cbn [no_sep]. intros H.
  apply andb_prop in H as [Hc Ha]. apply negb_true_iff in Hc.
  rewrite append_cons. cbn [split_on]. rewrite Hc. by rewrite (IH Ha).
Qed.

Lemma png_name_proper (srn : string) :
  String.eqb (srn +:+ ".png") "" = false ∧
  String.eqb (srn +:+ ".png") "." = false ∧
  String.eqb (srn +:+ ".png") ".." = false.
Proof.
  repeat split; apply String.eqb_neq; intros H;
    apply (f_equal String.length) in H; rewrite append_length in H;
    simpl in H; lia.
Qed.

(** For an identifier without a separator, the joined path is the directory,
    one separator and the file name, and it is written plainly. *)
Lemma image_path_plain (srn : string) :
  no_sep srn = true →
  image_path srn = "qr_codes/" +:+ srn +:+ ".png" ∧
  plain_path (image_path srn) = true.
Proof.
  intros H.
  assert (no_sep (srn +:+ ".png") = true) as Hn by (by rewrite no_sep_app, H).
  destruct (png_name_proper srn) as (H0 & H1 & H2).
  assert (split_on "/" ("qr_codes/" +:+ srn +:+ ".png")
          = ["qr_codes"; srn +:+ ".png"]) as Hsplit.
  { change ("qr_codes/" +:+ srn +:+ ".png")
      with ("qr_codes" +:+ String "/" (srn +:+ ".png")).
    rewrite split_on_app_sep by done. by rewrite split_on_no_sep. }
  assert (image_path srn = "qr_codes/" +:+ srn +:+ ".png") as ->.
  { unfold image_path, path_join, posix_join.
    rewrite (no_sep_not_rooted _ Hn).
    change (if String.eqb "qr_codes" "" || ends_with_sep "qr_codes"
            then "qr_codes" +:+ srn +:+ ".png"
            else "qr_codes" +:+ "/" +:+ srn +:+ ".png")
      with ("qr_codes/" +:+ srn +:+ ".png").
    unfold path_str, path_parts. rewrite Hsplit.
    change (path_root ("qr_codes/" +:+ srn +:+ ".png")) with "".
    simpl. by rewrite H0, H1. }
  split; [done|].
  unfold plain_path. rewrite Hsplit.
  change (starts_with "/" ("qr_codes/" +:+ srn +:+ ".png")) with false.
  unfold proper_name. simpl. by rewrite H0, H1, H2.
Qed.

(** ** One record *)

Lemma world_eta (w : world) : mkWorld (dirs w) (files w) (stdout w) = w.
Proof. by destruct w. Qed.

Lemma getitem_present (row : Series) (key : string) (w : world) :
  key ∈ index row →
  getitem row key w = (Return (cell (index row) (values row) key), w).
Proof. intros H. unfold getitem. by rewrite decide_True. Qed.

Lemma generate_one_eq (df : DataFrame) (row : Series) (w : world) :
  "SRN" ∈ index row → "Name" ∈ index row →
  generate_one "qr_codes" df row w =
    match row_error (dirs w) row with
    | Some e => (Raise e, w)
    | None =>
        (Return tt,
         mkWorld (dirs w)
           (<[row_dest (row_srn row) := PngImage (image_of (row_srn row))]> (files w))
           (stdout w ++ [progress_line df row]))
    end.
Proof.
  intros Hsrn Hname. unfold generate_one, bind.
  rewrite !getitem_present by done.
  fold (row_srn row) (row_name row) (row_status df row).
  change (add_data _ (row_srn row)) with (qr_of (row_srn row)).
  fold (image_path (row_srn row)).
  unfold make, row_error, image_of, fitted_version.
  destruct (make_outcome (qr_of (row_srn row)) true) as [e|v]; [done|]. simpl.
  unfold save. fold (row_dest (row_srn row)).
  destruct (save_error (dirs w) (image_path (row_srn row))) as [e|]; [done|].
  destruct (decide (row_dest (row_srn row) ∈ dirs w)); done.
Qed.

(** ** The loop *)

Lemma write_all_cons (row : Series) (l : list Series) (fs : gmap string file) :
  write_all (row :: l) fs =
  write_all l (<[row_dest (row_srn row) := PngImage (image_of (row_srn row))]> fs).
Proof. reflexivity. Qed.

Lemma write_all_snoc (row : Series) (l : list Series) (fs : gmap string file) :
  write_all (l ++ [row]) fs =
  <[row_dest (row_srn row) := PngImage (image_of (row_srn row))]> (write_all l fs).
Proof. unfold write_all. by rewrite foldl_app. Qed.

Lemma for_each_rows (df : DataFrame) (l : list Series) (w : world) :
  Forall (fun row => "SRN" ∈ index row ∧ "Name" ∈ index row) l →
  for_each l (generate_one "qr_codes" df) w =
    (match first_error (dirs w) l with
     | None => Return tt
     | Some e => Raise e
     end,
     mkWorld (dirs w)
       (write_all (processed (dirs w) l) (files w))
       (stdout w ++ map (progress_line df) (processed (dirs w) l))).
Proof.
  intros Hl. revert w. induction Hl as [|row l [Hsrn Hname] _ IH]; intros w.
  - simpl. unfold ret. by rewrite app_nil_r, world_eta.
  - simpl. unfold bind. rewrite generate_one_eq by done.
    destruct (row_error (dirs w) row) as [e|].
    + simpl. by rewrite app_nil_r, world_eta.
    + rewrite IH. simpl. by rewrite <- app_assoc.
Qed.

Lemma iterrows_labels (df : DataFrame) :
  required_columns df →
  Forall (fun row => "SRN" ∈ index row ∧ "Name" ∈ index row) (iterrows df).
Proof.
  intros [Hname Hsrn]. unfold iterrows. apply Forall_map, Forall_forall.
  intros r _. by simpl.
Qed.

(** ** The whole function, case by case *)

Lemma mkdir_ok (w : world) :
  can_mkdir w →
  mkdir "qr_codes" true w = (Return tt, mkWorld (ensured (dirs w)) (files w) (stdout w)).
Proof.
  intros [Hf Hd]. unfold mkdir. rewrite decide_False by done.
  destruct (decide ("qr_codes" ∈ dirs w)) as [Hin|Hin].
  - f_equal. rewrite <- (world_eta w) at 1. f_equal.
    unfold ensured. symmetry. apply subseteq_union_1_L.
    by apply singleton_subseteq_l.
  - destruct Hd as [Hd|Hd]; [done|]. by rewrite Hd.
Qed.

Lemma mkdir_blocked (w : world) :
  ¬ can_mkdir w → ∃ e, mkdir "qr_codes" true w = (Raise e, w).
Proof.
  intros Hw. unfold mkdir.
  destruct (decide ("qr_codes" ∈ dom (files w))) as [Hf|Hf]; [by eexists|].
  destruct (decide ("qr_codes" ∈ dirs w)) as [Hd|Hd].
  { exfalso. apply Hw. split; [done|by left]. }
  destruct (mkdir_error (dirs w) "qr_codes") as [e|] eqn:He; [by eexists|].
  exfalso. apply Hw. split; [done|by right].
Qed.

Lemma report_eq (path : string) (e : exn) (w : world) :
  report path e w =
    (Return tt, mkWorld (dirs w) (files w) (stdout w ++ [diagnostic path e])).
Proof. by destruct e. Qed.

Lemma read_csv_world (path : string) (w : world) : (read_csv path w).2 = w.
Proof.
  unfold read_csv. destruct (files w !! path) as [[]|]; try done.
  destruct (decide (path ∈ dirs w)); [done|].
  by destruct (decide (Exists _ _)).
Qed.

Lemma read_csv_table (path : string) (w : world) (df : DataFrame) :
  read_csv path w = (Return df, w) ↔ files w !! path = Some (CsvText df).
Proof.
  unfold read_csv. destruct (files w !! path) as [[]|]; try (split; congruence).
  destruct (decide (path ∈ dirs w)); [split; congruence|].
  destruct (decide (Exists _ _)); split; congruence.
Qed.

Lemma generate_blocked (path : string) (w : world) :
  ¬ can_mkdir w → ∃ e, generate_qr_codes_from_csv path w = (Raise e, w).
Proof.
  intros Hw. destruct (mkdir_blocked w Hw) as [e He]. exists e.
  unfold generate_qr_codes_from_csv, bind. by rewrite He.
Qed.

Lemma generate_load_error (path : string) (w : world) (e : exn) :
  can_mkdir w →
  (read_csv path (mkWorld (ensured (dirs w)) (files w) (stdout w))).1 = Raise e →
  generate_qr_codes_from_csv path w =
    (Return tt,
     mkWorld (ensured (dirs w)) (files w) (stdout w ++ [diagnostic path e])).
Proof.
  intros Hw He. unfold generate_qr_codes_from_csv, bind at 1.
  rewrite mkdir_ok by done. unfold try_except, generate_body, bind at 1.
  pose proof (read_csv_world path (mkWorld (ensured (dirs w)) (files w) (stdout w))) as Hw'.
  destruct (read_csv path _) as [r w']. simpl in He, Hw'. subst r w'.
  by rewrite report_eq.
Qed.

Lemma generate_schema_error (path : string) (w : world) (df : DataFrame) :
  can_mkdir w →
  files w !! path = Some (CsvText df) →
  ¬ required_columns df →
  generate_qr_codes_from_csv path w =
    (Return tt,
     mkWorld (ensured (dirs w)) (files w)
       (stdout w ++ ["Error: CSV file must contain 'Name' and 'SRN' columns"])).
Proof.
  intros Hw Hf Hc. unfold generate_qr_codes_from_csv, bind at 1.
  rewrite mkdir_ok by done. unfold try_except, generate_body, bind at 1.
  rewrite (proj2 (read_csv_table path _ df)) by done.
  unfold bind at 1.
  assert (bool_decide ("Name" ∉ columns df) || bool_decide ("SRN" ∉ columns df) = true)
    as ->.
  { unfold required_columns in Hc. apply orb_true_iff.
    rewrite !bool_decide_eq_true.
    destruct (decide ("Name" ∈ columns df)); [|by left].
    destruct (decide ("SRN" ∈ columns df)); [|by right]. by destruct Hc. }
  unfold raise. by rewrite report_eq.
Qed.

Lemma generate_table (path : string) (w : world) (df : DataFrame) :
  can_mkdir w →
  files w !! path = Some (CsvText df) →
  required_columns df →
  generate_qr_codes_from_csv path w =
    (Return tt,
     mkWorld (ensured (dirs w))
       (write_all (processed (ensured (dirs w)) (iterrows df)) (files w))
       (stdout w ++ [found_line df] ++
        map (progress_line df) (processed (ensured (dirs w)) (iterrows df)) ++
        [match first_error (ensured (dirs w)) (iterrows df) with
         | None => done_line
         | Some e => diagnostic path e
         end])).
Proof.
  intros Hw Hf Hc. unfold generate_qr_codes_from_csv, bind at 1.
  rewrite mkdir_ok by done. unfold try_except, generate_body, bind at 1.
  rewrite (proj2 (read_csv_table path _ df)) by done.
  unfold bind at 1.
  assert (bool_decide ("Name" ∉ columns df) || bool_decide ("SRN" ∉ columns df) = false)
    as ->.
  { destruct Hc as [Hname Hsrn]. apply orb_false_iff.
    rewrite !bool_decide_eq_false. split; intros H; by apply H. }
  unfold ret, bind at 1. unfold print at 1. unfold bind at 1.
  rewrite for_each_rows by (by apply iterrows_labels). simpl.
  destruct (first_error (ensured (dirs w)) (iterrows df)) as [e|].
  - rewrite report_eq. simpl. f_equal. f_equal.
    rewrite <- !app_assoc. done.
  - unfold print. simpl. f_equal. f_equal. rewrite <- !app_assoc. done.
Qed.

(** ** The files a batch leaves *)

Lemma write_all_lookup_notin (p : string) (l : list Series) (fs : gmap string file) :
  p ∉ map (fun row => row_dest (row_srn row)) l →
  write_all l fs !! p = fs !! p.
Proof.
  induction l as [|x l IH] using rev_ind; intros Hp; [done|].
  rewrite map_app, not_elem_of_app in Hp. destruct Hp as [Hl Hx].
  rewrite write_all_snoc, lookup_insert_ne; [by apply IH|].
  intros <-. apply Hx. simpl. apply list_elem_of_here.
Qed.

(** What stands in a written file is the image of the last row saved there. *)
Lemma write_all_lookup_dest (row : Series) (l : list Series) (fs : gmap string file) :
  row ∈ l →
  ∃ row', row' ∈ l ∧ row_dest (row_srn row') = row_dest (row_srn row) ∧
          write_all l fs !! row_dest (row_srn row)
          = Some (PngImage (image_of (row_srn row'))).
Proof.
  induction l as [|x l IH] using rev_ind; intros Hin.
  - by apply elem_of_nil in Hin.
  - rewrite write_all_snoc, lookup_insert. case_decide as Hp.
    + exists x. split_and!; [|done..].
      apply elem_of_app. right. apply list_elem_of_here.
    + apply elem_of_app in Hin as [Hin|Hin].
      * destruct (IH Hin) as (row' & Hrow' & Hd & Hl).
        exists row'. split_and!; [|done..]. apply elem_of_app. by left.
      * apply list_elem_of_singleton in Hin. by subst.
Qed.

(** The image of a row is in its file when every row saved to that file has
    the same identifier. *)
Lemma write_all_lookup_in (row : Series) (l : list Series) (fs : gmap string file) :
  row ∈ l →
  (∀ row', row' ∈ l → row_dest (row_srn row') = row_dest (row_srn row) →
           row_srn row' = row_srn row) →
  write_all l fs !! row_dest (row_srn row) = Some (PngImage (image_of (row_srn row))).
Proof.
  intros Hin Hsame.
  destruct (write_all_lookup_dest row l fs Hin) as (row' & Hrow' & Hd & ->).
  by rewrite (Hsame row' Hrow' Hd).
Qed.

(** A file holding the image of [srn] still does after a batch in which the
    rows saved to it have that identifier. *)
Lemma write_all_lookup_same (k srn : string) (l : list Series) (fs : gmap string file) :
  (∀ row, row ∈ l → row_dest (row_srn row) = k → row_srn row = srn) →
  fs !! k = Some (PngImage (image_of srn)) →
  write_all l fs !! k = Some (PngImage (image_of srn)).
Proof.
  revert fs. induction l as [|x l IH]; intros fs Hsame Hk; [done|].
  rewrite write_all_cons. apply IH.
  - intros row Hrow. apply Hsame. by apply elem_of_cons; right.
  - rewrite lookup_insert. case_decide as Hx; [|done].
    rewrite (Hsame x); [done| |done]. apply list_elem_of_here.
Qed.

(** A file that holds an image holds one after a batch. *)
Lemma write_all_lookup_png (k : string) (img : PilImage) (l : list Series)
    (fs : gmap string file) :
  fs !! k = Some (PngImage img) →
  ∃ img', write_all l fs !! k = Some (PngImage img').
Proof.
  revert fs img. induction l as [|x l IH]; intros fs img Hk; [by exists img|].
  rewrite write_all_cons.
  destruct (decide (row_dest (row_srn x) = k)) as [Hx|Hx].
  - apply (IH _ (image_of (row_srn x))). rewrite Hx. by rewrite lookup_insert_eq.
  - apply (IH _ img). by rewrite lookup_insert_ne.
Qed.

Lemma write_all_lookup_cases (p : string) (f : file) (l : list Series)
    (fs : gmap string file) :
  write_all l fs !! p = Some f →
  fs !! p = Some f ∨
  ∃ row, row ∈ l ∧ p = row_dest (row_srn row) ∧ f = PngImage (image_of (row_srn row)).
Proof.
  intros Hf.
  destruct (decide (p ∈ map (fun row => row_dest (row_srn row)) l)) as [Hp|Hp].
  - right. apply list_elem_of_fmap in Hp as (row & -> & Hrow).
    destruct (write_all_lookup_dest row l fs Hrow) as (row' & Hrow' & Hd & Hl).
    exists row'. split_and!; [done|done|]. congruence.
  - left. by rewrite write_all_lookup_notin in Hf.
Qed.

(** What a batch leaves in the files it writes does not depend on what was
    there. *)
Lemma write_all_lookup_indep (p : string) (l : list Series) (fs fs' : gmap string file) :
  p ∈ map (fun row => row_dest (row_srn row)) l →
  write_all l fs !! p = write_all l fs' !! p.
Proof.
  induction l as [|x l IH] using rev_ind; intros Hp.
  - by apply elem_of_nil in Hp.
  - rewrite !write_all_snoc, !lookup_insert. case_decide as Hx; [done|].
    apply IH. rewrite map_app in Hp. apply elem_of_app in Hp as [Hp|Hp]; [done|].
    simpl in Hp. apply list_elem_of_singleton in Hp. by subst.
Qed.

Lemma write_all_idem (l : list Series) (fs : gmap string file) :
  write_all l (write_all l fs) = write_all l fs.
Proof.
  apply map_eq. intros p.
  destruct (decide (p ∈ map (fun row => row_dest (row_srn row)) l)) as [Hp|Hp].
  - by apply write_all_lookup_indep.
  - by rewrite write_all_lookup_notin.
Qed.

Lemma write_all_dom (l : list Series) (fs : gmap string file) :
  dom (write_all l fs) =
  list_to_set (map (fun row => row_dest (row_srn row)) l) ∪ dom fs.
Proof.
  induction l as [|x l IH] using rev_ind.
  - simpl. by rewrite (left_id_L ∅ (∪)).
  - rewrite write_all_snoc, dom_insert_L, IH, map_app, list_to_set_app_L. simpl.
    rewrite (right_id_L ∅ (∪)). rewrite (assoc_L (∪)).
    f_equal. by rewrite (comm_L (∪)).
Qed.

(** ** Where a batch stops *)

Lemma processed_all (ds : gset string) (l : list Series) :
  Forall (fun row => row_error ds row = None) l →
  processed ds l = l ∧ first_error ds l = None.
Proof.
  induction 1 as [|row l Hrow _ [IH1 IH2]]; [done|].
  simpl. rewrite Hrow. by rewrite IH1, IH2.
Qed.

Lemma processed_stop (ds : gset string) (l1 l2 : list Series) (row : Series) (e : exn) :
  Forall (fun row => row_error ds row = None) l1 →
  row_error ds row = Some e →
  processed ds (l1 ++ row :: l2) = l1 ∧ first_error ds (l1 ++ row :: l2) = Some e.
Proof.
  intros Hl1 Hrow. induction Hl1 as [|x l1 Hx _ [IH1 IH2]].
  - simpl. by rewrite Hrow.
  - simpl. rewrite Hx. by rewrite IH1, IH2.
Qed.

Lemma processed_elem_of (ds : gset string) (l : list Series) (row : Series) :
  row ∈ processed ds l → row ∈ l.
Proof.
  induction l as [|x l IH]; simpl; [done|].
  destruct (row_error ds x); [by intros ?%elem_of_nil|].
  rewrite !elem_of_cons. intros [->|Hin]; [by left|right; by apply IH].
Qed.

Lemma processed_app (ds : gset string) (l l' : list Series) :
  Forall (fun row => row_error ds row = None) l →
  processed ds (l ++ l') = l ++ processed ds l'.
Proof.
  induction 1 as [|row l Hrow _ IH]; [done|].
  simpl. by rewrite Hrow, IH.
Qed.

Lemma processed_ok (ds : gset string) (l : list Series) (row : Series) :
  row ∈ processed ds l → row_error ds row = None.
Proof.
  induction l as [|x l IH]; simpl; [by intros ?%elem_of_nil|].
  destruct (row_error ds x) eqn:Hx; [by intros ?%elem_of_nil|].
  rewrite elem_of_cons. intros [->|Hin]; [done|by apply IH].
Qed.

(** A record that is not refused is saved to a file that is no directory. *)
Lemma row_error_None (ds : gset string) (row : Series) :
  row_error ds row = None →
  (∃ v, make_outcome (qr_of (row_srn row)) true = inr v) ∧
  save_error ds (image_path (row_srn row)) = None ∧
  row_dest (row_srn row) ∉ ds.
Proof.
  unfold row_error.
  destruct (make_outcome (qr_of (row_srn row)) true) as [e|v]; [done|].
  destruct (save_error ds (image_path (row_srn row))) as [e|]; [done|].
  destruct (decide (row_dest (row_srn row) ∈ ds)); [done|]. by eauto.
Qed.

(** ** Identifiers that are file names *)

Lemma row_dest_plain (srn : string) :
  no_sep srn = true → row_dest srn = "qr_codes/" +:+ srn +:+ ".png".
Proof.
  intros H. destruct (image_path_plain srn H) as [Hp Hplain].
  unfold row_dest, locate. by rewrite Hplain.
Qed.

Lemma row_dest_plain_inj (s1 s2 : string) :
  no_sep s1 = true → no_sep s2 = true → row_dest s1 = row_dest s2 → s1 = s2.
Proof.
  intros H1 H2. rewrite !row_dest_plain by done.
  intros H. apply (inj (String.app "qr_codes/")) in H.
  by apply append_inj_r in H.
Qed.


Lemma written_paths_plain (df : DataFrame) :
  Forall (fun row => no_sep (row_srn row) = true) (iterrows df) →
  written_paths df
  = map (fun row => "qr_codes/" +:+ row_srn row +:+ ".png") (iterrows df).
Proof.
  intros Hp. unfold written_paths. induction Hp as [|row l Hrow _ IH]; [done|].
  simpl. by rewrite IH, row_dest_plain.
Qed.

Lemma written_paths_NoDup (df : DataFrame) :
  Forall (fun row => no_sep (row_srn row) = true) (iterrows df) →
  NoDup (map row_srn (iterrows df)) → NoDup (written_paths df).
Proof.
  intros Hp Hnd. unfold written_paths.
  change (map (fun row => row_dest (row_srn row)) (iterrows df))
    with ((row_dest ∘ row_srn) <$> iterrows df).
  rewrite list_fmap_compose. apply NoDup_fmap_2_strong; [|done].
  intros s1 s2 H1 H2. rewrite Forall_forall in Hp.
  apply list_elem_of_fmap in H1 as (r1 & -> & Hr1).
  apply list_elem_of_fmap in H2 as (r2 & -> & Hr2).
  apply row_dest_plain_inj; by apply Hp.
Qed.

Lemma NoDup_fmap_inj_on {A B} (f : A → B) (l : list A) (x y : A) :
  NoDup (f <$> l) → x ∈ l → y ∈ l → f x = f y → x = y.
Proof.
  induction l as [|a l IH]; [by intros _ ?%elem_of_nil|].
  rewrite fmap_cons, NoDup_cons. intros [Ha Hnd].
  rewrite !elem_of_cons. intros [->|Hx] [->|Hy] Hf; [done| | |by apply IH].
  - exfalso. apply Ha. rewrite Hf. by apply list_elem_of_fmap_2.
  - exfalso. apply Ha. rewrite <- Hf. by apply list_elem_of_fmap_2.
Qed.

(** C1, as amended.  For an input file whose table has N rows and the two
    required columns, and on which no record is refused, the run returns
    normally after N image writes, one per row in input order, the write for
    a row going to the file reached by the path that [pathlib] gives for
    [qr_codes / "<identifier>.png"], the identifier being the trimmed text
    of the row's SRN cell; every other file is left as it was.  The image
    files this leaves are as many as the distinct files written: when the N
    writes go to N files, each file holds the image of its row.  When no
    identifier has a separator in it, the file of a row is
    [qr_codes/<identifier>.png], and pairwise distinct identifiers give N
    files. *)
Theorem C1_one_image_write_per_row (path : string) (w : world) (df : DataFrame) :
  can_mkdir w →
  files w !! path = Some (CsvText df) →
  required_columns df →
  Forall (fun row => row_error (ensured (dirs w)) row = None) (iterrows df) →
  let out := generate_qr_codes_from_csv path w in
  out.1 = Return tt ∧
  length (written_paths df) = length (rows df) ∧
  files out.2 = write_all (iterrows df) (files w) ∧
  dom (files out.2) = list_to_set (written_paths df) ∪ dom (files w) ∧
  (∀ row, row ∈ iterrows df →
     row_dest (row_srn row)
     = locate (path_join "qr_codes"
                 (strip (py_str (cell (columns df) (values row) "SRN")) +:+ ".png")) ∧
     ∃ img, files out.2 !! row_dest (row_srn row) = Some (PngImage img)) ∧
  (∀ p, p ∉ written_paths df → files out.2 !! p = files w !! p) ∧
  (NoDup (written_paths df) →
     size (list_to_set (written_paths df) : gset string) = length (rows df) ∧
     ∀ row, row ∈ iterrows df →
       files out.2 !! row_dest (row_srn row)
       = Some (PngImage (image_of (row_srn row)))) ∧
  (Forall (fun row => no_sep (row_srn row) = true) (iterrows df) →
     written_paths df
     = map (fun row => "qr_codes/" +:+ row_srn row +:+ ".png") (iterrows df) ∧
     (NoDup (map row_srn (iterrows df)) → NoDup (written_paths df))).
Proof.
  intros Hw Hf Hc Hok out. subst out.
  rewrite (generate_table path w df) by done.
  destruct (processed_all _ _ Hok) as [-> ->]. simpl.
  assert (length (written_paths df) = length (rows df)) as Hlen.
  { unfold written_paths, iterrows. by rewrite !length_map. }
  split_and!; try done.
  - apply write_all_dom.
  - intros row Hrow. split.
    + assert (index row = columns df) as <-; [|done].
      unfold iterrows in Hrow. by apply list_elem_of_fmap in Hrow as (r & -> & _).
    + destruct (write_all_lookup_dest row _ (files w) Hrow) as (row' & _ & _ & Hl).
      by eexists.
  - intros p Hp. by apply write_all_lookup_notin.
  - intros Hnd. split.
    + rewrite <- Hlen. by apply size_list_to_set.
    + intros row Hrow. apply write_all_lookup_in; [done|].
      intros row' Hrow' Hd.
      by rewrite (NoDup_fmap_inj_on (fun r => row_dest (row_srn r))
                    (iterrows df) row' row Hnd Hrow' Hrow Hd).
  - intros Hplain. split; [by apply written_paths_plain|].
    by apply written_paths_NoDup.
Qed.

Lemma read_csv_not_table (path : string) (w : world) :
  (∀ df, files w !! path ≠ Some (CsvText df)) →
  ∃ e, (read_csv path w).1 = Raise e.
Proof.
  intros Hf. unfold read_csv.
  destruct (files w !! path) as [[df| |msg|img]|]; try by eexists.
  - by destruct (Hf df).
  - destruct (decide (path ∈ dirs w)); [by eexists|].
    destruct (decide (Exists _ _)); by eexists.
Qed.

(** The three ways a call can go: the directory cannot be made and the
    exception escapes; no table with the required columns is loaded and one
    line is printed; or the loop runs up to the first record that raises. *)
Lemma generate_cases (path : string) (w : world) :
  (¬ can_mkdir w ∧ ∃ e, generate_qr_codes_from_csv path w = (Raise e, w)) ∨
  (can_mkdir w ∧
   (∀ df, files w !! path = Some (CsvText df) → ¬ required_columns df) ∧
   ∃ e, generate_qr_codes_from_csv path w =
          (Return tt,
           mkWorld (ensured (dirs w)) (files w) (stdout w ++ [diagnostic path e]))) ∨
  (can_mkdir w ∧
   ∃ df, files w !! path = Some (CsvText df) ∧ required_columns df ∧
     generate_qr_codes_from_csv path w =
       (Return tt,
        mkWorld (ensured (dirs w))
          (write_all (processed (ensured (dirs w)) (iterrows df)) (files w))
          (stdout w ++ [found_line df] ++
           map (progress_line df) (processed (ensured (dirs w)) (iterrows df)) ++
           [match first_error (ensured (dirs w)) (iterrows df) with
            | None => done_line
            | Some e => diagnostic path e
            end]))).
Proof.
  destruct (decide (can_mkdir w)) as [Hw|Hw]; [|left; by auto using generate_blocked].
  right.
  destruct (files w !! path) as [f|] eqn:Hf.
  - destruct f as [df| |msg|img].
    + destruct (decide (required_columns df)) as [Hc|Hc].
      * right. split; [done|]. exists df. by auto using generate_table.
      * left. split; [done|]. split; [by intros ? [= <-]|].
        exists (ValueError "CSV file must contain 'Name' and 'SRN' columns").
        by apply generate_schema_error with df.
    + left. split; [done|]. split; [done|]. eexists.
      apply generate_load_error; [done|]. unfold read_csv. simpl. by rewrite Hf.
    + left. split; [done|]. split; [done|]. eexists.
      apply generate_load_error; [done|]. unfold read_csv. simpl. by rewrite Hf.
    + left. split; [done|]. split; [done|]. eexists.
      apply generate_load_error; [done|]. unfold read_csv. simpl. by rewrite Hf.
  - left. split; [done|]. split; [done|].
    destruct (read_csv_not_table path
                (mkWorld (ensured (dirs w)) (files w) (stdout w))) as [e He].
    { simpl. intros df. by rewrite Hf. }
    exists e. by apply generate_load_error.
Qed.

(** Whatever happens, the files at the end are those at the start with the
    images of some rows written over them. *)
Lemma generate_files (path : string) (w : world) :
  ∃ l, files (generate_qr_codes_from_csv path w).2 = write_all l (files w).
Proof.
  destruct (generate_cases path w)
    as [(_ & e & ->)|[(_ & _ & e & ->)|(_ & df & _ & _ & ->)]].
  - by exists [].
  - by exists [].
  - by eexists.
Qed.

(** C3, as amended.  Every image a run writes was requested with the one
    configuration the source spells out, the same for every record: error
    correction L, box size 10, border 4, black on white, and a symbol made
    with [fit=True] from version 1 for the single payload whose path reaches
    the file.  The version of the symbol is the one the encoder answers for
    that request; it is not pinned to 1. *)
Theorem C3_fixed_encoding_request (path : string) (w : world)
    (p : string) (img : PilImage) :
  let out := generate_qr_codes_from_csv path w in
  files out.2 !! p = Some (PngImage img) →
  files w !! p ≠ Some (PngImage img) →
  error_correction (img_qr img) = ERROR_CORRECT_L ∧
  box_size (img_qr img) = 10%Z ∧
  border (img_qr img) = 4%Z ∧
  fill_color img = "black" ∧
  back_color img = "white" ∧
  made (img_qr img) = Some true ∧
  ∃ srn, p = locate (image_path srn) ∧
         data_list (img_qr img) = [srn] ∧
         make_outcome (mkQRCode 1 ERROR_CORRECT_L 10 4 [srn] None) true
           = inr (version (img_qr img)).
Proof.
  intros out Hnew Hold. subst out.
  destruct (generate_cases path w)
    as [(_ & e & Hg)|[(_ & _ & e & Hg)|(_ & df & _ & Hc & Hg)]];
    rewrite Hg in Hnew; simpl in Hnew; try done.
  apply write_all_lookup_cases in Hnew as [Hnew|(row & Hrow & -> & [= ->])]; [done|].
  split_and!; try done. exists (row_srn row). split_and!; try done.
  simpl. unfold fitted_version. fold (qr_of (row_srn row)).
  destruct (make_outcome (qr_of (row_srn row)) true) as [e|v] eqn:Hmk; [|done].
  exfalso. revert Hrow.
  generalize (iterrows df). intros l Hrow.
  induction l as [|x l IH]; simpl in Hrow; [by apply elem_of_nil in Hrow|].
  destruct (row_error (ensured (dirs w)) x) eqn:Hx; [by apply elem_of_nil in Hrow|].
  apply elem_of_cons in Hrow as [->|Hrow]; [|by apply IH].
  unfold row_error in Hx. by rewrite Hmk in Hx.
Qed.

(** C4, as amended.  A file with a header that has the required columns
    and no data row raises nothing: the run reports 0 records, prints the
    completion message and writes no image.  The "file is empty" diagnostic
    is what a file without any line gets, again with no image written. *)
Theorem C4_header_only_and_blank_input (w : world) :
  can_mkdir w →
  (∀ path df,
     files w !! path = Some (CsvText df) → rows df = [] → required_columns df →
     generate_qr_codes_from_csv path w =
       (Return tt,
        mkWorld (ensured (dirs w)) (files w)
          (stdout w ++ ["Found 0 records in the CSV file"; done_line]))) ∧
  (∀ path,
     files w !! path = Some BlankText →
     generate_qr_codes_from_csv path w =
       (Return tt,
        mkWorld (ensured (dirs w)) (files w)
          (stdout w ++ ["Error: The CSV file is empty!"]))).
Proof.
  intros Hw. split.
  - intros path df Hf Hrows Hc. rewrite (generate_table path w df) by done.
    unfold iterrows, found_line. rewrite Hrows. reflexivity.
  - intros path Hf.
    rewrite (generate_load_error path w
               (EmptyDataError "No columns to parse from file")); [done..|].
    unfold read_csv. simpl. by rewrite Hf.
Qed.

(** C5.  When the header of the input file lacks [Name] or [SRN], the run
    prints the "must contain" diagnostic and returns; the check comes before
    the loop, so whatever rows the file has, no file is written. *)
Theorem C5_missing_required_column (path : string) (w : world) (df : DataFrame) :
  can_mkdir w →
  files w !! path = Some (CsvText df) →
  "Name" ∉ columns df ∨ "SRN" ∉ columns df →
  generate_qr_codes_from_csv path w =
    (Return tt,
     mkWorld (ensured (dirs w)) (files w)
       (stdout w ++ ["Error: CSV file must contain 'Name' and 'SRN' columns"])).
Proof.
  intros Hw Hf Hmiss. apply generate_schema_error with df; [done..|].
  intros [Hname Hsrn]. by destruct Hmiss as [H|H]; apply H.
Qed.


(** ** A second run *)

Lemma ensured_idem (ds : gset string) : ensured (ensured ds) = ensured ds.
Proof.
  unfold ensured. rewrite (assoc_L (∪)). by rewrite (idemp_L (∪)).
Qed.

Lemma can_mkdir_ensured (ds : gset string) (fs : gmap string file) (out : list string) :
  "qr_codes" ∉ dom fs → can_mkdir (mkWorld (ensured ds) fs out).
Proof.
  intros Hfs. split; [done|]. left. simpl.
  apply elem_of_union_l. by apply elem_of_singleton.
Qed.

(** No image is saved where the directory [qr_codes] stands. *)
Lemma write_all_keeps_dir_free (ds : gset string) (l : list Series)
    (fs : gmap string file) :
  "qr_codes" ∉ dom fs →
  "qr_codes" ∉ dom (write_all (processed (ensured ds) l) fs).
Proof.
  intros Hfs. rewrite write_all_dom, elem_of_union. intros [Hin|Hin]; [|done].
  rewrite elem_of_list_to_set in Hin.
  apply list_elem_of_fmap in Hin as (row & Hp & Hrow).
  apply processed_ok, row_error_None in Hrow as (_ & _ & Hd).
  apply Hd. rewrite <- Hp. apply elem_of_union_l. by apply elem_of_singleton.
Qed.

(** C7.  A second run on the same path, started where the first one ended,
    leaves every file and every directory exactly as the first run left
    them: the same names with the same content, whatever the first run met
    (a directory that cannot be made, a file that does not load, a record
    that raises). *)
Theorem C7_second_run_leaves_files_identical (path : string) (w : world) :
  let first := generate_qr_codes_from_csv path w in
  let second := generate_qr_codes_from_csv path first.2 in
  files second.2 = files first.2 ∧ dirs second.2 = dirs first.2.
Proof.
  intros first second. subst first second.
  destruct (generate_cases path w)
    as [(_ & e & Hg)|[(Hw & Hno & e & Hg)|(Hw & df & Hf & Hc & Hg)]].
  - rewrite Hg. simpl. by rewrite Hg.
  - rewrite Hg. simpl.
    set (w1 := mkWorld (ensured (dirs w)) (files w) (stdout w ++ [diagnostic path e])).
    destruct (generate_cases path w1)
      as [[Hw1 _]|[(_ & _ & e1 & Hg1)|(_ & df1 & Hf1 & Hc1 & _)]].
    + destruct Hw1. apply can_mkdir_ensured. by destruct Hw.
    + rewrite Hg1. simpl. by rewrite ensured_idem.
    + by destruct (Hno df1 Hf1).
  - rewrite Hg. simpl.
    set (done1 := processed (ensured (dirs w)) (iterrows df)).
    set (w1 := mkWorld (ensured (dirs w)) (write_all done1 (files w)) _).
    assert (can_mkdir w1) as Hw1.
    { apply can_mkdir_ensured, write_all_keeps_dir_free. by destruct Hw. }
    destruct (generate_cases path w1)
      as [[Hb _]|[(_ & _ & e1 & Hg1)|(_ & df1 & Hf1 & Hc1 & Hg1)]].
    + by destruct Hb.
    + rewrite Hg1. simpl. by rewrite ensured_idem.
    + rewrite Hg1. simpl. rewrite ensured_idem. split; [|done].
      simpl in Hf1.
      apply write_all_lookup_cases in Hf1 as [Hf1|(row & _ & _ & Hpng)]; [|done].
      rewrite Hf in Hf1. injection Hf1 as <-.
      apply write_all_idem.
Qed.

(** ** Records that share an identifier *)

Lemma size_list_to_set_le (l : list string) :
  (size (list_to_set l : gset string) ≤ length l)%nat.
Proof.
  induction l as [|x l IH].
  - rewrite list_to_set_nil, size_empty. done.
  - rewrite list_to_set_cons, size_union_alt, size_singleton. simpl.
    assert (size ((list_to_set l : gset string) ∖ {[x]})
            ≤ size (list_to_set l : gset string))%nat
      by (apply subseteq_size, subseteq_difference_l; done).
    lia.
Qed.

Lemma size_list_to_set_dup (l1 l2 : list string) (p : string) :
  p ∈ l2 →
  (size (list_to_set (l1 ++ p :: l2) : gset string) < length (l1 ++ p :: l2))%nat.
Proof.
  intros Hp.
  assert ((list_to_set (l1 ++ p :: l2) : gset string) = list_to_set (l1 ++ l2)) as ->.
  { apply set_eq. intros q. rewrite !elem_of_list_to_set, !elem_of_app, elem_of_cons.
    split; [|tauto]. intros [?|[->|?]]; tauto. }
  pose proof (size_list_to_set_le (l1 ++ l2)) as Hle.
  rewrite !length_app in *. simpl. lia.
Qed.

Lemma filter_absent (l : list string) (p : string) :
  p ∉ l → filter (fun q => q = p) l = [].
Proof.
  induction l as [|x l IH]; intros Hp; [done|].
  apply not_elem_of_cons in Hp as [Hne Hp].
  rewrite filter_cons. rewrite decide_False by done. by apply IH.
Qed.

Lemma listed_once (l : list string) (p : string) :
  NoDup l → p ∈ l → length (filter (fun q => q = p) l) = 1%nat.
Proof.
  induction 1 as [|x l Hx Hnd IH]; intros Hp; [by apply elem_of_nil in Hp|].
  rewrite filter_cons. case_decide as Hxp.
  - subst x. by rewrite filter_absent.
  - apply IH. apply elem_of_cons in Hp as [->|Hp]; done.
Qed.

Lemma write_all_app (l l' : list Series) (fs : gmap string file) :
  write_all (l ++ l') fs = write_all l' (write_all l fs).
Proof. unfold write_all. by rewrite foldl_app. Qed.

(** C8, as amended.  When two records of the table have the same identifier
    and no record up to the second of them is refused, both are saved to the
    same file: an image is there when the second is reached (the image of
    the first, unless a record between them was saved to that file under
    another identifier), the second is saved over it, and at the end the
    listing of the files has that file once, holding an image (the image of
    the later record, unless a record after it was saved to that file under
    another identifier); the table has more rows than files written. *)
Theorem C8_later_duplicate_overwrites (path : string) (w : world) (df : DataFrame)
    (l1 l2 l3 : list Series) (r1 r2 : Series) :
  can_mkdir w →
  files w !! path = Some (CsvText df) →
  required_columns df →
  iterrows df = l1 ++ r1 :: l2 ++ r2 :: l3 →
  Forall (fun row => row_error (ensured (dirs w)) row = None) (l1 ++ r1 :: l2 ++ [r2]) →
  row_srn r1 = row_srn r2 →
  let out := generate_qr_codes_from_csv path w in
  let p := row_dest (row_srn r1) in
  let later := processed (ensured (dirs w)) l3 in
  let before_second := write_all (l1 ++ r1 :: l2) (files w) in
  row_dest (row_srn r2) = p ∧
  (∃ img, before_second !! p = Some (PngImage img)) ∧
  ((∀ row, row ∈ l2 → row_dest (row_srn row) = p → row_srn row = row_srn r1) →
     before_second !! p = Some (PngImage (image_of (row_srn r1)))) ∧
  files out.2 =
    write_all later (<[p := PngImage (image_of (row_srn r2))]> before_second) ∧
  (∃ img, files out.2 !! p = Some (PngImage img)) ∧
  ((∀ row, row ∈ later → row_dest (row_srn row) = p → row_srn row = row_srn r2) →
     files out.2 !! p = Some (PngImage (image_of (row_srn r2)))) ∧
  length (filter (fun q => q = p) (elements (dom (files out.2)))) = 1 ∧
  size (list_to_set (written_paths df) : gset string) < length (rows df).
Proof.
  intros Hw Hf Hc Hsplit Hok Hsame out p later before_second.
  subst out p later before_second.
  rewrite (generate_table path w df) by done. simpl.
  assert (iterrows df = (l1 ++ r1 :: l2 ++ [r2]) ++ l3) as Hsplit'.
  { rewrite Hsplit, <- app_assoc. simpl. by rewrite <- app_assoc. }
  assert (processed (ensured (dirs w)) (iterrows df)
          = (l1 ++ r1 :: l2) ++ r2 :: processed (ensured (dirs w)) l3) as Hdone.
  { rewrite Hsplit', processed_app by done.
    rewrite <- !app_assoc. simpl. by rewrite <- !app_assoc. }
  assert (write_all (processed (ensured (dirs w)) (iterrows df)) (files w)
          = write_all (processed (ensured (dirs w)) l3)
              (<[row_dest (row_srn r1) := PngImage (image_of (row_srn r2))]>
                 (write_all (l1 ++ r1 :: l2) (files w)))) as Hfiles.
  { rewrite Hdone, write_all_app, write_all_cons. by rewrite Hsame. }
  assert (∃ img, write_all (processed (ensured (dirs w)) (iterrows df)) (files w)
                 !! row_dest (row_srn r1) = Some (PngImage img)) as Hlast.
  { rewrite Hfiles. eapply write_all_lookup_png. by rewrite lookup_insert_eq. }
  split_and!.
  - by rewrite Hsame.
  - rewrite write_all_app, write_all_cons.
    eapply write_all_lookup_png. by rewrite lookup_insert_eq.
  - intros Hl2. rewrite write_all_app, write_all_cons.
    apply write_all_lookup_same; [done|]. by rewrite lookup_insert_eq.
  - done.
  - done.
  - intros Hl3. rewrite Hfiles. rewrite Hsame in *.
    apply write_all_lookup_same; [done|]. by rewrite lookup_insert_eq.
  - apply listed_once; [apply NoDup_elements|].
    destruct Hlast as [img Hlast].
    apply elem_of_elements, elem_of_dom. by eexists.
  - assert (length (rows df) = length (written_paths df)) as ->
      by (unfold written_paths, iterrows; by rewrite !length_map).
    unfold written_paths. rewrite Hsplit, map_app. simpl.
    apply size_list_to_set_dup. rewrite map_app, Hsame. simpl.
    apply elem_of_app. right. apply list_elem_of_here.
Qed.

(** ** Failures *)

(** C9, as amended.  Once the output directory is there, the function
    returns normally whatever happens, so the exit status is 0 for every
    error kind as for success.  An exception raised by the statements under
    [try] is answered by one printed line and nothing else: the files and
    the lines printed so far stay as they are.  No record is guarded on its
    own: the first record that raises ends the batch, the images of the
    records before it stay, those after it are not processed. *)
Theorem C9_failures_under_try_reported_once (path : string) (w : world) :
  can_mkdir w →
  let ready := mkWorld (ensured (dirs w)) (files w) (stdout w) in
  let out := generate_qr_codes_from_csv path w in
  exit_status out.1 = 0%Z ∧
  (∀ e w', generate_body "qr_codes" path ready = (Raise e, w') →
     out = (Return tt,
            mkWorld (dirs w') (files w') (stdout w' ++ [diagnostic path e]))) ∧
  (∀ w', generate_body "qr_codes" path ready = (Return tt, w') →
     out = (Return tt, w')) ∧
  (∀ df l1 row l2 e,
     files w !! path = Some (CsvText df) → required_columns df →
     iterrows df = l1 ++ row :: l2 →
     Forall (fun r => row_error (ensured (dirs w)) r = None) l1 →
     row_error (ensured (dirs w)) row = Some e →
     out = (Return tt,
            mkWorld (ensured (dirs w)) (write_all l1 (files w))
              (stdout w ++ [found_line df] ++ map (progress_line df) l1 ++
               [diagnostic path e]))).
Proof.
  intros Hw ready out. subst ready out. split_and!.
  - destruct (generate_cases path w)
      as [[Hb _]|[(_ & _ & e & ->)|(_ & df & _ & _ & ->)]]; [by destruct Hb|done..].
  - intros e w' Hbody. unfold generate_qr_codes_from_csv, bind.
    rewrite mkdir_ok by done. unfold try_except. rewrite Hbody.
    apply report_eq.
  - intros w' Hbody. unfold generate_qr_codes_from_csv, bind.
    rewrite mkdir_ok by done. unfold try_except. by rewrite Hbody.
  - intros df l1 row l2 e Hf Hc Hsplit Hl1 Hrow.
    rewrite (generate_table path w df) by done. rewrite Hsplit.
    by destruct (processed_stop _ l1 l2 row e Hl1 Hrow) as [-> ->].
Qed.

(** ** A record without identifier *)

(** C10.  A row whose SRN cell holds NaN, which is what the loader leaves
    for an empty or missing field, gets the identifier "nan" and not the
    empty string: unless the record is refused, the payload encoded is
    "nan" and the image is saved as [qr_codes/nan.png]. *)
Theorem C10_missing_identifier_becomes_nan (df : DataFrame) (row : Series) (w : world) :
  "SRN" ∈ index row → "Name" ∈ index row →
  cell (index row) (values row) "SRN" = VNaN →
  row_srn row = "nan" ∧
  row_srn row ≠ "" ∧
  data_list (img_qr (image_of (row_srn row))) = ["nan"] ∧
  generate_one "qr_codes" df row w =
    match row_error (dirs w) row with
    | Some e => (Raise e, w)
    | None =>
        (Return tt,
         mkWorld (dirs w)
           (<["qr_codes/nan.png" := PngImage (image_of "nan")]> (files w))
           (stdout w ++ [progress_line df row]))
    end.
Proof.
  intros Hsrn Hname Hnan.
  assert (row_srn row = "nan") as Hid by (unfold row_srn; by rewrite Hnan).
  split_and!; [done|by rewrite Hid|by rewrite Hid|].
  rewrite generate_one_eq by done. by rewrite Hid.
Qed.

(** ** Trimming *)

Lemma lstrip_blank (s : string) : blank s = true → lstrip s = "".
Proof.
  induction s as [|c s IH]; simpl; [done|].
  intros [Hc Hs]%andb_true_iff. rewrite Hc. by apply IH.
Qed.

Lemma lstrip_app (s t : string) :
  lstrip (s +:+ t) = if blank s then lstrip t else lstrip s +:+ t.
Proof.
  induction s as [|c s IH]; [done|].
  rewrite append_cons. simpl. destruct (py_isspace c); simpl; [done|].
  by rewrite append_cons.
Qed.

Lemma lstrip_clean_start (s : string) : clean_start (lstrip s) = true.
Proof.
  induction s as [|c s IH]; simpl; [done|].
  destruct (py_isspace c) eqn:Hc; [done|]. simpl. by rewrite Hc.
Qed.

Lemma lstrip_prefix (s : string) :
  ∃ pre, blank pre = true ∧ s = pre +:+ lstrip s.
Proof.
  induction s as [|c s (pre & Hpre & IH)]; simpl.
  - by exists "".
  - destruct (py_isspace c) eqn:Hc.
    + exists (String c pre). split; [simpl; by rewrite Hc|].
      rewrite append_cons. by rewrite <- IH.
    + by exists "".
Qed.

Lemma rev_app_eq (s t : string) : String.rev_app s t = String.rev s +:+ t.
Proof.
  unfold String.rev. revert t. induction s as [|c s IH]; intros t; simpl; [done|].
  rewrite IH, (IH (String c "")). 
  generalize (String.rev_app s "") as u. intros u.
  induction u as [|d u IHu]; [done|]. rewrite !append_cons. by rewrite IHu.
Qed.

Lemma append_assoc (s t u : string) : (s +:+ t) +:+ u = s +:+ (t +:+ u).
Proof.
  induction s as [|c s IH]; [done|]. rewrite !append_cons. by rewrite IH.
Qed.

Lemma append_nil_r (s : string) : s +:+ "" = s.
Proof. induction s as [|c s IH]; [done|]. rewrite append_cons. by rewrite IH. Qed.

Lemma rev_cons (c : ascii) (s : string) :
  String.rev (String c s) = String.rev s +:+ String c "".
Proof. unfold String.rev at 1. simpl. apply rev_app_eq. Qed.

Lemma rev_append (s t : string) :
  String.rev (s +:+ t) = String.rev t +:+ String.rev s.
Proof.
  induction s as [|c s IH].
  - rewrite append_nil_l. by rewrite append_nil_r.
  - rewrite append_cons, !rev_cons, IH. apply append_assoc.
Qed.

Lemma rev_involutive (s : string) : String.rev (String.rev s) = s.
Proof.
  induction s as [|c s IH]; [done|].
  rewrite rev_cons, rev_append, IH. reflexivity.
Qed.

Lemma blank_append (s t : string) : blank (s +:+ t) = blank s && blank t.
Proof.
  induction s as [|c s IH]; [done|].
  rewrite append_cons. simpl. rewrite IH. by rewrite andb_assoc.
Qed.

Lemma blank_rev (s : string) : blank (String.rev s) = blank s.
Proof.
  induction s as [|c s IH]; [done|].
  rewrite rev_cons, blank_append, IH. simpl.
  rewrite andb_true_r. apply andb_comm.
Qed.

Lemma rstrip_suffix (s : string) :
  ∃ post, blank post = true ∧ s = rstrip s +:+ post.
Proof.
  destruct (lstrip_prefix (String.rev s)) as (pre & Hpre & Hs).
  exists (String.rev pre). split; [by rewrite blank_rev|].
  unfold rstrip. rewrite <- rev_append, <- Hs. by rewrite rev_involutive.
Qed.

Lemma rstrip_append_blank (s post : string) :
  blank post = true → rstrip (s +:+ post) = rstrip s.
Proof.
  intros Hpost. unfold rstrip. rewrite rev_append, lstrip_app.
  by rewrite blank_rev, Hpost.
Qed.

Lemma clean_start_append (s t : string) :
  clean_start (s +:+ t) = true → clean_start s = true.
Proof. destruct s as [|c s]; [done|]. by rewrite append_cons. Qed.

Lemma strip_surrounding (pre s post : string) :
  blank pre = true → blank post = true →
  strip (pre +:+ (s +:+ post)) = strip s.
Proof.
  intros Hpre Hpost. unfold strip. rewrite lstrip_app, Hpre, lstrip_app.
  destruct (blank s) eqn:Hs.
  - by rewrite (lstrip_blank post), (lstrip_blank s).
  - by apply rstrip_append_blank.
Qed.

(** X1.  The identifier of a row, and so the stem of the file name and the
    payload, never starts and never ends with a white-space character,
    whatever the SRN cell holds. *)
Theorem X1_identifier_has_no_surrounding_space (row : Series) :
  clean_start (row_srn row) = true ∧
  clean_start (String.rev (row_srn row)) = true.
Proof.
  unfold row_srn, strip.
  generalize (py_str (cell (index row) (values row) "SRN")). intros s. split.
  - destruct (rstrip_suffix (lstrip s)) as (post & _ & Hs).
    apply (clean_start_append _ post). rewrite <- Hs. apply lstrip_clean_start.
  - unfold rstrip. rewrite rev_involutive. apply lstrip_clean_start.
Qed.

(** X2.  Two rows whose SRN texts differ only by white space around them get
    the same identifier, hence the same payload and the same destination. *)
Theorem X2_surrounding_space_is_ignored (r1 r2 : Series) (pre s post : string) :
  cell (index r1) (values r1) "SRN" = VStr (pre +:+ (s +:+ post)) →
  cell (index r2) (values r2) "SRN" = VStr s →
  blank pre = true → blank post = true →
  row_srn r1 = row_srn r2 ∧
  image_path (row_srn r1) = image_path (row_srn r2) ∧
  qr_of (row_srn r1) = qr_of (row_srn r2).
Proof.
  intros H1 H2 Hpre Hpost.
  assert (row_srn r1 = row_srn r2) as ->; [|done].
  unfold row_srn. rewrite H1, H2. simpl. by apply strip_surrounding.
Qed.

(** X3.  A row whose SRN text is made of white space only is not skipped: its
    identifier is the empty string, the payload handed to the encoder is
    empty, and unless the record is refused the image is saved as
    [qr_codes/.png]. *)
Theorem X3_blank_identifier_is_processed (df : DataFrame) (row : Series)
    (w : world) (t : string) :
  "SRN" ∈ index row → "Name" ∈ index row →
  cell (index row) (values row) "SRN" = VStr t →
  blank t = true →
  row_srn row = "" ∧
  generate_one "qr_codes" df row w =
    match row_error (dirs w) row with
    | Some e => (Raise e, w)
    | None =>
        (Return tt,
         mkWorld (dirs w)
           (<["qr_codes/.png" :=
                PngImage (mkPilImage
                            (mkQRCode (fitted_version "") ERROR_CORRECT_L 10 4 [""]
                                      (Some true))
                            "black" "white")]> (files w))
           (stdout w ++ [progress_line df row]))
    end.
Proof.
  intros Hsrn Hname Hcell Ht.
  assert (row_srn row = "") as Hid.
  { unfold row_srn, strip. rewrite Hcell. simpl. by rewrite lstrip_blank. }
  split; [done|]. rewrite generate_one_eq by done. rewrite Hid. reflexivity.
Qed.

(** ** The function in closed form *)

Lemma read_csv_load (path : string) (w : world) :
  read_csv path w = (load path (dirs w) (files w), w).
Proof.
  unfold load, read_csv. simpl. destruct (files w !! path) as [[]|]; try done.
  destruct (decide (path ∈ dirs w)); [done|].
  by destruct (decide (Exists _ _)).
Qed.

Lemma load_table (path : string) (ds : gset string) (fs : gmap string file)
    (df : DataFrame) :
  load path ds fs = Return df ↔ fs !! path = Some (CsvText df).
Proof.
  unfold load, read_csv. simpl. destruct (fs !! path) as [[]|]; simpl;
    try (split; congruence).
  destruct (decide (path ∈ ds)); simpl; [split; congruence|].
  destruct (decide (Exists _ _)); simpl; split; congruence.
Qed.

Lemma generate_eq (path : string) (w : world) :
  can_mkdir w →
  generate_qr_codes_from_csv path w =
    (Return tt,
     mkWorld (ensured (dirs w))
       (run_files path (ensured (dirs w)) (files w))
       (stdout w ++ run_lines path (ensured (dirs w)) (files w))).
Proof.
  intros Hw. unfold run_files, run_lines.
  destruct (load path (ensured (dirs w)) (files w)) as [df|e] eqn:Hload.
  - apply load_table in Hload.
    destruct (decide (required_columns df)) as [Hc|Hc].
    + by rewrite (generate_table path w df).
    + by apply generate_schema_error with df.
  - apply generate_load_error; [done|]. by rewrite read_csv_load.
Qed.




Lemma plain_rows_no_alias (l : list Series) :
  Forall (fun row => no_sep (row_srn row) = true) l →
  ∀ r r', r ∈ l → r' ∈ l →
          row_dest (row_srn r) = row_dest (row_srn r') → row_srn r = row_srn r'.
Proof.
  rewrite Forall_forall. intros Hl r r' Hr Hr'.
  apply row_dest_plain_inj; by apply Hl.
Qed.

(** ** The console *)

Lemma printed_app (w : world) (ds : gset string) (fs : gmap string file)
    (lines : list string) :
  printed w (mkWorld ds fs (stdout w ++ lines)) = lines.
Proof. unfold printed. simpl. apply drop_app_length. Qed.

(** X4.  A run on a table with the required columns in which no record is
    refused prints the count line, then one progress line per record in input
    order, then the completion message: as many lines as records plus two,
    none of them a diagnostic. *)
Theorem X4_transcript_of_a_complete_run (path : string) (w : world) (df : DataFrame) :
  can_mkdir w →
  files w !! path = Some (CsvText df) →
  required_columns df →
  Forall (fun row => row_error (ensured (dirs w)) row = None) (iterrows df) →
  let out := generate_qr_codes_from_csv path w in
  printed w out.2 =
    found_line df :: map (progress_line df) (iterrows df) ++ [done_line] ∧
  length (printed w out.2) = length (rows df) + 2 ∧
  Forall (fun line => starts_with "Error: " line = false) (printed w out.2).
Proof.
  intros Hw Hf Hc Hok out. subst out.
  rewrite (generate_table path w df) by done.
  destruct (processed_all _ _ Hok) as [-> ->]. simpl. rewrite printed_app.
  split_and!.
  - done.
  - simpl. rewrite length_app, length_map. unfold iterrows. rewrite length_map.
    simpl. lia.
  - apply Forall_cons. split; [done|]. apply Forall_app. split.
    + apply Forall_map, Forall_forall. by intros row _.
    + by apply Forall_singleton.
Qed.


(** X6.  When saving the image of a record raises [FileNotFoundError] (the
    identifier names a file below a directory that is not there, say), the
    line printed blames the input file, which was found and loaded: after
    the count line and the progress lines of the records before, the run
    prints that the CSV file was not found, and returns normally. *)
Theorem X6_save_not_found_blames_the_input (path : string) (w : world)
    (df : DataFrame) (l1 l2 : list Series) (row : Series) (v : Z) (msg : string) :
  can_mkdir w →
  files w !! path = Some (CsvText df) →
  required_columns df →
  iterrows df = l1 ++ row :: l2 →
  Forall (fun r => row_error (ensured (dirs w)) r = None) l1 →
  make_outcome (qr_of (row_srn row)) true = inr v →
  image_path (row_srn row) ∉ ensured (dirs w) →
  save_error (ensured (dirs w)) (image_path (row_srn row))
    = Some (FileNotFoundError msg) →
  let out := generate_qr_codes_from_csv path w in
  out.1 = Return tt ∧
  files out.2 = write_all l1 (files w) ∧
  printed w out.2 =
    found_line df :: map (progress_line df) l1 ++
    ["Error: CSV file '" +:+ path +:+ "' not found!"].
Proof.
  intros Hw Hf Hc Hsplit Hl1 Hmk Hdir Hsave out. subst out.
  assert (row_error (ensured (dirs w)) row = Some (FileNotFoundError msg)) as Hrow.
  { unfold row_error. by rewrite Hmk, Hsave. }
  rewrite (generate_table path w df) by done. rewrite Hsplit.
  destruct (processed_stop _ l1 l2 row _ Hl1 Hrow) as [-> ->].
  simpl. by rewrite printed_app.
Qed.

(** X7.  The exit status of the script tells one thing only: it is 0 exactly
    when making sure of the directory [qr_codes] succeeds.  A missing or
    empty input file, a missing column or a refused record never changes
    it. *)
Theorem X7_exit_status_of_the_script (w : world) :
  exit_status (main w).1 = 0%Z ↔ can_mkdir w.
Proof.
  unfold main. split.
  - intros Hexit. destruct (decide (can_mkdir w)) as [Hw|Hw]; [done|].
    destruct (generate_blocked "paid_list_with_status.csv" w Hw) as [e He].
    by rewrite He in Hexit.
  - intros Hw. by rewrite generate_eq.
Qed.


(** ** Runs compared *)




(** X10.  The image files a complete run leaves do not depend on the order of
    the records when records saved to the same file have the same
    identifier (as when the identifiers are file names): for two input
    tables with the same header and the same rows in another order, every
    file other than the input itself is the same at the end. *)
Theorem X10_order_of_records_is_immaterial (path : string) (w : world)
    (df df' : DataFrame) :
  can_mkdir w →
  files w !! path = Some (CsvText df) →
  required_columns df →
  columns df' = columns df →
  rows df' ≡ₚ rows df →
  Forall (fun row => row_error (ensured (dirs w)) row = None) (iterrows df) →
  (∀ r r', r ∈ iterrows df → r' ∈ iterrows df →
           row_dest (row_srn r) = row_dest (row_srn r') → row_srn r = row_srn r') →
  let w' := mkWorld (dirs w) (<[path := CsvText df']> (files w)) (stdout w) in
  let out := generate_qr_codes_from_csv path w in
  let out' := generate_qr_codes_from_csv path w' in
  out'.1 = out.1 ∧
  ∀ p, p ≠ path → files out'.2 !! p = files out.2 !! p.
Proof.
  intros Hw Hf Hc Hcols Hperm Hok Hsame w' out out'. subst out out'.
  assert (iterrows df' ≡ₚ iterrows df) as Hrows.
  { unfold iterrows. rewrite Hcols. by apply fmap_Permutation. }
  assert (can_mkdir w') as Hw'.
  { destruct Hw as [Hw Hd]. split; [|done]. unfold w'. simpl.
    rewrite dom_insert_L, not_elem_of_union.
    split; [|done]. rewrite not_elem_of_singleton. intros <-.
    apply Hw, elem_of_dom. by eexists. }
  assert (required_columns df') as Hc' by (unfold required_columns; by rewrite Hcols).
  assert (Forall (fun row => row_error (ensured (dirs w')) row = None) (iterrows df'))
    as Hok' by by rewrite Hrows.
  rewrite (generate_table path w df) by done.
  rewrite (generate_table path w' df') by (subst w'; simpl; by rewrite ?lookup_insert_eq).
  destruct (processed_all _ _ Hok) as [-> ->].
  destruct (processed_all _ _ Hok') as [-> ->]. simpl. split; [done|].
  intros p Hp.
  destruct (decide (p ∈ map (fun row => row_dest (row_srn row)) (iterrows df)))
    as [Hin|Hin].
  - apply list_elem_of_fmap in Hin as (row & -> & Hrow).
    rewrite !write_all_lookup_in; [done|done| |by rewrite Hrows|].
    + intros row' Hrow'. by apply Hsame.
    + intros row' Hrow'. apply Hsame; [|done]. by rewrite <- Hrows.
  - rewrite !write_all_lookup_notin; [by rewrite lookup_insert_ne|done|].
    intros Hin'. apply Hin. revert Hin'.
    rewrite !list_elem_of_fmap. intros (row & -> & Hrow). exists row.
    split; [done|]. by rewrite <- Hrows.
Qed.

(** X11.  The status a progress line shows is "Unknown" when the table has
    no [Status] column.  With the column there, the line shows the text of
    the cell as it is, not trimmed, so that an empty cell prints as "nan"
    and not as "Unknown". *)
Theorem X11_status_of_a_progress_line (df : DataFrame) (row : Series) (w : world) :
  required_columns df →
  row ∈ iterrows df →
  row_error (dirs w) row = None →
  let status_text :=
    if bool_decide ("Status" ∈ columns df)
    then py_str (cell (columns df) (values row) "Status")
    else "Unknown" in
  last (stdout (generate_one "qr_codes" df row w).2) =
    Some ("Generated QR code for " +:+ row_name row +:+ " (SRN: " +:+ row_srn row +:+
          ", Status: " +:+ status_text +:+ ") -> " +:+ image_path (row_srn row)) ∧
  ("Status" ∉ columns df → status_text = "Unknown") ∧
  ("Status" ∈ columns df → cell (columns df) (values row) "Status" = VNaN →
     status_text = "nan").
Proof.
  intros Hc Hrow Hok status_text.
  assert (index row = columns df) as Hidx.
  { unfold iterrows in Hrow. by apply list_elem_of_fmap in Hrow as (r & -> & _). }
  assert ("SRN" ∈ index row ∧ "Name" ∈ index row) as [Hsrn Hname]
    by (rewrite Hidx; by destruct Hc).
  split_and!.
  - rewrite generate_one_eq, Hok by done. simpl. rewrite last_snoc. f_equal.
    unfold progress_line, row_status, status_text, get. rewrite Hidx.
    destruct (bool_decide ("Status" ∈ columns df)) eqn:Hst; [|done].
    apply bool_decide_eq_true in Hst. by rewrite decide_True.
  - intros Hst. unfold status_text. by rewrite bool_decide_eq_false_2.
  - intros Hst Hnan. unfold status_text. rewrite bool_decide_eq_true_2 by done.
    by rewrite Hnan.
Qed.

(** ** How a run ends *)




(** X13.  A run never cleans [qr_codes]: a file to which no row of the table
    loaded is saved, an image left by an earlier run for a record no longer
    listed say, is the same after the run, whether the batch completes or
    stops on the way. *)
Theorem X13_other_images_are_left_alone (path : string) (w : world)
    (df : DataFrame) (p : string) :
  files w !! path = Some (CsvText df) →
  p ∉ written_paths df →
  files (generate_qr_codes_from_csv path w).2 !! p = files w !! p.
Proof.
  intros Hf Hp.
  destruct (decide (can_mkdir w)) as [Hw|Hw].
  2: { by destruct (generate_blocked path w Hw) as [e ->]. }
  rewrite generate_eq by done. simpl. unfold run_files.
  rewrite (proj2 (load_table path _ _ df)) by done.
  destruct (decide (required_columns df)); [|done].
  apply write_all_lookup_notin. intros Hin. apply Hp. unfold written_paths.
  apply list_elem_of_fmap in Hin as (row & -> & Hrow).
  apply list_elem_of_fmap. exists row. split; [done|].
  by apply processed_elem_of in Hrow.
Qed.

End Generator.


(** ** The statements on the sample inputs *)


Lemma C1_one_image_write_per_row_witness :
  let w := world_with (CsvText df_sample) in
  let out := generate_qr_codes_from_csv byte_mode_make no_save_error lexical_reach no_mkdir_error input_path w in
  out.1 = Return tt ∧
  written_paths lexical_reach df_sample
  = ["qr_codes/PES1UG20CS001.png"; "qr_codes/PES1UG20CS002.png"] ∧
  files out.2 !! "qr_codes/PES1UG20CS001.png"
  = Some (PngImage (image_of byte_mode_make "PES1UG20CS001")) ∧
  size (list_to_set (written_paths lexical_reach df_sample) : gset string) = 2.
Proof.
  intros w out.
  destruct (C1_one_image_write_per_row byte_mode_make no_save_error lexical_reach no_mkdir_error
              input_path w df_sample) as (H1 & _ & _ & _ & _ & _ & H7 & H8).
  - by_evaluation.
  - vm_compute. reflexivity.
  - by_evaluation.
  - by_evaluation.
  - destruct H8 as [H8 H9]; [by_evaluation|].
    destruct H7 as [H7 H7']; [apply H9; by_evaluation|].
    split_and!; [exact H1 | rewrite H8; reflexivity | | exact H7].
    apply (H7' (mkSeries ["Name"; "SRN"; "Status"]
                  [VStr "Asha Rao"; VStr " PES1UG20CS001 "; VStr "Paid"])).
    by_evaluation.
Defined.

(** C1, as stated, fails when two records share an identifier: the table has
    two rows, the run succeeds, and one image file is there at the end. *)
Lemma C1_duplicate_identifiers_counterexample :
  let w := world_with (CsvText df_dup) in
  let out := main byte_mode_make no_save_error lexical_reach no_mkdir_error w in
  required_columns df_dup ∧
  length (rows df_dup) = 2 ∧
  out.1 = Return tt ∧
  size (dom (files out.2) ∖ dom (files w)) = 1 ∧
  size (dom (files out.2) ∖ dom (files w)) ≠ length (rows df_dup).
Proof.
  split_and!.
  - by_evaluation.
  - reflexivity.
  - vm_compute. reflexivity.
  - vm_compute. reflexivity.
  - vm_compute. discriminate.
Qed.

(** C3, as stated, fails on a long identifier: thirty bytes do not fit a
    version-1 symbol, and with [fit=True] the image saved is a version-2
    symbol. *)
Lemma C3_long_identifier_counterexample :
  let w := world_with (CsvText df_long) in
  let out := main byte_mode_make no_save_error lexical_reach no_mkdir_error w in
  ∃ img,
    files out.2 !! "qr_codes/pes-university-2020-cs-section.png" = Some (PngImage img) ∧
    files w !! "qr_codes/pes-university-2020-cs-section.png" = None ∧
    version (img_qr img) = 2%Z ∧
    ¬ fixed_configuration img.
Proof.
  eexists. split_and!.
  - vm_compute. reflexivity.
  - vm_compute. reflexivity.
  - reflexivity.
  - intros [Hv _]. vm_compute in Hv. discriminate.
Qed.

Lemma C3_fixed_encoding_request_witness :
  let w := world_with (CsvText df_long) in
  let img := image_of byte_mode_make "pes-university-2020-cs-section" in
  error_correction (img_qr img) = ERROR_CORRECT_L ∧
  box_size (img_qr img) = 10%Z ∧
  border (img_qr img) = 4%Z ∧
  fill_color img = "black" ∧
  back_color img = "white" ∧
  made (img_qr img) = Some true.
Proof.
  intros w img.
  destruct (C3_fixed_encoding_request byte_mode_make no_save_error lexical_reach no_mkdir_error input_path w
              "qr_codes/pes-university-2020-cs-section.png" img)
    as (H1 & H2 & H3 & H4 & H5 & H6 & _).
  - vm_compute. reflexivity.
  - vm_compute. discriminate.
  - by split_and!.
Defined.

(** C4, as stated, fails on a file made of a header alone: the run prints
    the count and the completion message, and no "empty" diagnostic. *)
Lemma C4_header_only_counterexample :
  let out := main byte_mode_make no_save_error lexical_reach no_mkdir_error (world_with (CsvText df_header_only)) in
  rows df_header_only = [] ∧
  out.1 = Return tt ∧
  stdout out.2 = ["Found 0 records in the CSV file"; done_line] ∧
  "Error: The CSV file is empty!" ∉ stdout out.2.
Proof.
  split_and!.
  - reflexivity.
  - vm_compute. reflexivity.
  - vm_compute. reflexivity.
  - by_evaluation.
Qed.

Lemma C4_header_only_and_blank_input_witness :
  let w := mkWorld ∅ {[ "header.csv" := CsvText df_header_only; "blank.csv" := BlankText ]} [] in
  stdout (generate_qr_codes_from_csv byte_mode_make no_save_error lexical_reach no_mkdir_error "header.csv" w).2
    = ["Found 0 records in the CSV file"; done_line] ∧
  stdout (generate_qr_codes_from_csv byte_mode_make no_save_error lexical_reach no_mkdir_error "blank.csv" w).2
    = ["Error: The CSV file is empty!"].
Proof.
  intros w.
  destruct (C4_header_only_and_blank_input byte_mode_make no_save_error lexical_reach no_mkdir_error w) as [H1 H2].
  - by_evaluation.
  - rewrite (H1 "header.csv" df_header_only); [|vm_compute; reflexivity|reflexivity|by_evaluation].
    rewrite (H2 "blank.csv"); [|vm_compute; reflexivity].
    split; reflexivity.
Defined.

Lemma C5_missing_required_column_witness :
  let w := world_with (CsvText df_no_srn) in
  generate_qr_codes_from_csv byte_mode_make no_save_error lexical_reach no_mkdir_error input_path w =
    (Return tt,
     mkWorld (ensured (dirs w)) (files w)
       ["Error: CSV file must contain 'Name' and 'SRN' columns"]).
Proof.
  intros w.
  apply (C5_missing_required_column byte_mode_make no_save_error lexical_reach no_mkdir_error input_path w df_no_srn).
  - by_evaluation.
  - vm_compute. reflexivity.
  - right. by_evaluation.
Defined.



(** C8, as stated, fails when the shared identifier cannot be saved: the
    first of the two records ends the batch, and no file for the identifier
    is there at the end. *)
Lemma C8_refused_duplicate_counterexample :
  let w := world_with (CsvText df_dup_nested) in
  let out := main byte_mode_make flat_save_error lexical_reach no_mkdir_error w in
  map row_srn (iterrows df_dup_nested) = ["2020/CS002"; "2020/CS002"] ∧
  out.1 = Return tt ∧
  dom (files out.2) = dom (files w) ∧
  files out.2 !! "qr_codes/2020/CS002.png" = None ∧
  stdout out.2 = ["Found 2 records in the CSV file";
                  "Error: CSV file 'paid_list_with_status.csv' not found!"].
Proof.
  split_and!.
  - reflexivity.
  - vm_compute. reflexivity.
  - by_evaluation.
  - vm_compute. reflexivity.
  - vm_compute. reflexivity.
Qed.

Lemma C8_later_duplicate_overwrites_witness :
  let w := world_with (CsvText df_dup) in
  let out := generate_qr_codes_from_csv byte_mode_make no_save_error lexical_reach no_mkdir_error input_path w in
  files out.2 !! "qr_codes/PES1UG20CS001.png"
    = Some (PngImage (image_of byte_mode_make "PES1UG20CS001")) ∧
  length (filter (fun q => q = "qr_codes/PES1UG20CS001.png")
            (elements (dom (files out.2)))) = 1 ∧
  size (list_to_set (written_paths lexical_reach df_dup) : gset string) < 2.
Proof.
  intros w out.
  destruct (C8_later_duplicate_overwrites byte_mode_make no_save_error lexical_reach no_mkdir_error input_path w df_dup
              [] [] []
              (mkSeries ["Name"; "SRN"] [VStr "Asha Rao"; VStr "PES1UG20CS001"])
              (mkSeries ["Name"; "SRN"] [VStr "Ravi K"; VStr " PES1UG20CS001"]))
    as (_ & _ & _ & _ & _ & H6 & H7 & H8).
  - by_evaluation.
  - vm_compute. reflexivity.
  - by_evaluation.
  - reflexivity.
  - by_evaluation.
  - vm_compute. reflexivity.
  - split_and!; [apply H6 | exact H7 | exact H8].
    intros row Hrow. exact (False_ind _ (proj1 (elem_of_nil row) Hrow)).
Defined.

(** C9, as stated, fails when [qr_codes] cannot be made: the exception is
    raised before the [try], nothing is printed and the script ends with
    status 1. *)
Lemma C9_blocked_directory_counterexample :
  let out := main byte_mode_make no_save_error lexical_reach no_mkdir_error world_blocked in
  out.1 = Raise (FileExistsError "[Errno 17] File exists: 'qr_codes'") ∧
  stdout out.2 = [] ∧
  exit_status out.1 = 1%Z.
Proof. split_and!; vm_compute; reflexivity. Qed.

Lemma C9_failures_under_try_reported_once_witness :
  let out := generate_qr_codes_from_csv byte_mode_make no_save_error lexical_reach no_mkdir_error input_path world_bare in
  exit_status out.1 = 0%Z ∧
  stdout out.2 = ["Error: CSV file 'paid_list_with_status.csv' not found!"].
Proof.
  intros out.
  destruct (C9_failures_under_try_reported_once byte_mode_make no_save_error lexical_reach no_mkdir_error
              input_path world_bare) as (H1 & H2 & _ & _).
  - by_evaluation.
  - split; [exact H1|].
    subst out.
    rewrite (H2 (FileNotFoundError
                   "[Errno 2] No such file or directory: 'paid_list_with_status.csv'")
                (mkWorld {[ "qr_codes" ]} ∅ [])); [reflexivity|].
    vm_compute. reflexivity.
Defined.

Lemma C10_missing_identifier_becomes_nan_witness :
  let row := mkSeries ["Name"; "SRN"] [VStr "Asha Rao"; VNaN] in
  row_srn row = "nan" ∧
  files (generate_one byte_mode_make no_save_error lexical_reach "qr_codes" df_blank_srn row world_bare).2
    !! "qr_codes/nan.png" = Some (PngImage (image_of byte_mode_make "nan")).
Proof.
  intros row.
  destruct (C10_missing_identifier_becomes_nan byte_mode_make no_save_error
              lexical_reach df_blank_srn row world_bare) as (H1 & _ & _ & H4).
  - by_evaluation.
  - by_evaluation.
  - reflexivity.
  - split; [exact H1|]. rewrite H4. vm_compute. reflexivity.
Defined.

(** ** Identifiers that are not file names *)

(** Two distinct identifiers saved to one file: the later image stays. *)
Example two_spellings_leave_one_file :
  let w := world_with (CsvText df_alias) in
  let out := main byte_mode_make no_save_error lexical_reach no_mkdir_error w in
  map row_srn (iterrows df_alias) = ["A1"; "./A1"] ∧
  written_paths lexical_reach df_alias = ["qr_codes/A1.png"; "qr_codes/A1.png"] ∧
  size (dom (files out.2) ∖ dom (files w)) = 1 ∧
  files out.2 !! "qr_codes/A1.png" = Some (PngImage (image_of byte_mode_make "./A1")).
Proof.
  split_and!.
  - reflexivity.
  - reflexivity.
  - vm_compute. reflexivity.
  - vm_compute. reflexivity.
Qed.

(** An identifier that climbs out of [qr_codes] replaces the input file, and
    an identifier from the root is saved outside the working directory; a
    second run then fails to decode its input. *)
Example climbing_identifier_replaces_the_input :
  let w := mkWorld ∅ {[ "list.png" := CsvText df_climb ]} [] in
  let first :=
    generate_qr_codes_from_csv byte_mode_make no_save_error lexical_reach
      no_mkdir_error "list.png" w in
  let second :=
    generate_qr_codes_from_csv byte_mode_make no_save_error lexical_reach
      no_mkdir_error "list.png" first.2 in
  files first.2 !! "list.png" = Some (PngImage (image_of byte_mode_make "../list")) ∧
  files first.2 !! "/tmp/x.png" = Some (PngImage (image_of byte_mode_make "/tmp/x")) ∧
  printed first.2 second.2 =
    ["Error: 'utf-8' codec can't decode byte 0x89 in position 0: invalid start byte"].
Proof.
  split_and!.
  - vm_compute. reflexivity.
  - vm_compute. reflexivity.
  - vm_compute. reflexivity.
Qed.

(** An input path below a regular file is not reported as not found. *)
Example input_below_a_regular_file :
  let w := mkWorld ∅ {[ "data" := BlankText ]} [] in
  stdout (generate_qr_codes_from_csv byte_mode_make no_save_error lexical_reach
            no_mkdir_error "data/list.csv" w).2
  = ["Error: [Errno 20] Not a directory: 'data/list.csv'"].
Proof. vm_compute. reflexivity. Qed.

(** ** The further statements on the sample inputs *)


Lemma X2_surrounding_space_is_ignored_witness :
  row_srn (mkSeries ["Name"; "SRN"] [VStr "Asha Rao"; VStr " PES1UG20CS001 "])
  = row_srn (mkSeries ["Name"; "SRN"] [VStr "Ravi K"; VStr "PES1UG20CS001"]).
Proof.
  destruct (X2_surrounding_space_is_ignored
              (mkSeries ["Name"; "SRN"] [VStr "Asha Rao"; VStr " PES1UG20CS001 "])
              (mkSeries ["Name"; "SRN"] [VStr "Ravi K"; VStr "PES1UG20CS001"])
              " " "PES1UG20CS001" " ") as [H _].
  - reflexivity.
  - reflexivity.
  - reflexivity.
  - reflexivity.
  - exact H.
Defined.

Lemma X3_blank_identifier_is_processed_witness :
  let row := mkSeries ["Name"; "SRN"] [VStr "Asha Rao"; VStr "   "] in
  row_srn row = "" ∧
  dom (files (generate_one byte_mode_make no_save_error lexical_reach "qr_codes" df_blank_srn row
                world_bare).2) = {[ "qr_codes/.png" ]}.
Proof.
  intros row.
  destruct (X3_blank_identifier_is_processed byte_mode_make no_save_error
              lexical_reach df_blank_srn row world_bare "   ") as [H1 H2].
  - by_evaluation.
  - by_evaluation.
  - reflexivity.
  - reflexivity.
  - split; [exact H1|]. rewrite H2. vm_compute. reflexivity.
Defined.

Lemma X4_transcript_of_a_complete_run_witness :
  let w := world_with (CsvText df_sample) in
  let out := generate_qr_codes_from_csv byte_mode_make no_save_error lexical_reach no_mkdir_error input_path w in
  printed w out.2 =
    ["Found 2 records in the CSV file";
     "Generated QR code for Asha Rao (SRN: PES1UG20CS001, Status: Paid) -> qr_codes/PES1UG20CS001.png";
     "Generated QR code for Ravi K (SRN: PES1UG20CS002, Status: Pending) -> qr_codes/PES1UG20CS002.png";
     done_line].
Proof.
  intros w out.
  destruct (X4_transcript_of_a_complete_run byte_mode_make no_save_error lexical_reach no_mkdir_error
              input_path w df_sample) as [H _].
  - by_evaluation.
  - vm_compute. reflexivity.
  - by_evaluation.
  - by_evaluation.
  - subst out. rewrite H. vm_compute. reflexivity.
Defined.

Lemma X6_save_not_found_blames_the_input_witness :
  let w := world_with (CsvText df_nested) in
  let out := generate_qr_codes_from_csv byte_mode_make flat_save_error lexical_reach no_mkdir_error input_path w in
  out.1 = Return tt ∧
  printed w out.2 =
    ["Found 3 records in the CSV file";
     "Generated QR code for Asha Rao (SRN: PES1UG20CS001, Status: Unknown) -> qr_codes/PES1UG20CS001.png";
     "Error: CSV file 'paid_list_with_status.csv' not found!"].
Proof.
  intros w out.
  destruct (X6_save_not_found_blames_the_input byte_mode_make flat_save_error lexical_reach no_mkdir_error
              input_path w df_nested
              [mkSeries ["Name"; "SRN"] [VStr "Asha Rao"; VStr "PES1UG20CS001"]]
              [mkSeries ["Name"; "SRN"] [VStr "Mira S"; VStr "PES1UG20CS003"]]
              (mkSeries ["Name"; "SRN"] [VStr "Ravi K"; VStr "2020/CS002"])
              1%Z "[Errno 2] No such file or directory: 'qr_codes/2020/CS002.png'")
    as (H1 & _ & H3).
  - by_evaluation.
  - vm_compute. reflexivity.
  - by_evaluation.
  - reflexivity.
  - by_evaluation.
  - vm_compute. reflexivity.
  - by_evaluation.
  - vm_compute. reflexivity.
  - split; [exact H1|]. subst out. rewrite H3. vm_compute. reflexivity.
Defined.


Lemma X10_order_of_records_is_immaterial_witness :
  let w := world_with (CsvText df_sample) in
  let w' := world_with (CsvText df_sample_reversed) in
  files (generate_qr_codes_from_csv byte_mode_make no_save_error lexical_reach no_mkdir_error input_path w').2
    !! "qr_codes/PES1UG20CS001.png"
  = files (generate_qr_codes_from_csv byte_mode_make no_save_error lexical_reach no_mkdir_error input_path w).2
    !! "qr_codes/PES1UG20CS001.png".
Proof.
  intros w w'.
  destruct (X10_order_of_records_is_immaterial byte_mode_make no_save_error lexical_reach no_mkdir_error
              input_path w df_sample df_sample_reversed) as [_ H].
  - by_evaluation.
  - vm_compute. reflexivity.
  - by_evaluation.
  - reflexivity.
  - apply perm_swap.
  - by_evaluation.
  - apply plain_rows_no_alias. by_evaluation.
  - apply (H "qr_codes/PES1UG20CS001.png"). by_evaluation.
Defined.

Lemma X11_status_of_a_progress_line_witness :
  let row := mkSeries ["Name"; "SRN"; "Status"]
               [VStr "Asha Rao"; VStr "PES1UG20CS001"; VNaN] in
  last (stdout (generate_one byte_mode_make no_save_error lexical_reach "qr_codes" df_status row
                  world_bare).2)
  = Some "Generated QR code for Asha Rao (SRN: PES1UG20CS001, Status: nan) -> qr_codes/PES1UG20CS001.png".
Proof.
  intros row.
  destruct (X11_status_of_a_progress_line byte_mode_make no_save_error
              lexical_reach df_status row world_bare) as [H _].
  - by_evaluation.
  - by_evaluation.
  - vm_compute. reflexivity.
  - rewrite H. vm_compute. reflexivity.
Defined.


Lemma X13_other_images_are_left_alone_witness :
  files (generate_qr_codes_from_csv byte_mode_make no_save_error lexical_reach no_mkdir_error input_path
           world_stale).2 !! "qr_codes/OLD.png"
  = files world_stale !! "qr_codes/OLD.png".
Proof.
  apply (X13_other_images_are_left_alone byte_mode_make no_save_error lexical_reach no_mkdir_error input_path
           world_stale df_sample).
  - vm_compute. reflexivity.
  - by_evaluation.
Defined.
